(** * Retirement-pension risk dashboard ([app.py]): model and properties

    The script reads a table of per-company predictions, filters it by a
    search box, derives a 0/1 judgement from the risk probability, and shows
    the details of the first row of the filtered table: the verdict, the
    expected against the actual shortfall, a twelve-month rebalancing
    projection and the yearly indicator ratios of that company.

    The model follows the script top to bottom.  Numbers are IEEE binary64
    values ([PrimFloat.float], the type of [numpy.float64] and of Python's
    [float]); a table is a list of rows and a row is a list of labelled
    cells, as a pandas [Series] taken with [iloc]; the calls to the
    [streamlit] module are recorded in order, and an exception stops the
    script and keeps what was already shown. *)

From Stdlib Require Import ZArith List Sorted String Ascii Bool Lia.
From Stdlib Require Import QArith Qabs Qround DecimalString.
From Stdlib Require Import Floats.
Import ListNotations.

Set Warnings "-inexact-float".

Local Open Scope string_scope.
Local Open Scope list_scope.
Local Open Scope Z_scope.

(** ** Python values, exceptions and output *)

Module Py.

(** The exceptions the modelled statements raise. *)
Inductive exn : Set :=
| KeyError (key : string)
| TypeError
| ValueError
| OverflowError
| ReError.

(** A computation that returns or raises. *)
Definition res (A : Type) : Type := (exn + A)%type.

Definition ok {A : Type} (a : A) : res A := inr a.
Definition raise {A : Type} (e : exn) : res A := inl e.

Definition rbind {A B : Type} (c : res A) (k : A -> res B) : res B :=
  match c with
  | inl e => inl e
  | inr a => k a
  end.

Fixpoint rmap {A B : Type} (f : A -> res B) (l : list A) : res (list B) :=
  match l with
  | [] => ok []
  | a :: l' => rbind (f a) (fun b => rbind (rmap f l') (fun bs => ok (b :: bs)))
  end.

(** The rows a mask keeps; the mask is computed for the whole table
    first, so a row that raises ends it. *)
Fixpoint rfilter {A : Type} (f : A -> res bool) (l : list A) : res (list A) :=
  match l with
  | [] => ok []
  | a :: l' =>
      rbind (f a) (fun b =>
      rbind (rfilter f l') (fun rest => ok (if b then a :: rest else rest)))
  end.

(** A test that returned [True]. *)
Definition holds (r : res bool) : bool :=
  match r with
  | inr true => true
  | _ => false
  end.

(** A cell of a table read from CSV.  A numeric entry is held as a
    binary64; pandas gives that type to a numeric column with a fraction
    or a missing entry ([NaN]), and an integer column of magnitude up to
    [2^52] embeds in it without loss for every operation used below.
    Everything else is a string. *)
Inductive cell : Set :=
| VNum (x : float)
| VStr (s : string).

(** A pandas [Series] with string labels: one row of a table. *)
Definition Series : Set := list (string * cell).

(** [key in row] *)
Fixpoint contains (row : Series) (key : string) : bool :=
  match row with
  | [] => false
  | (k, _) :: row' => if String.eqb k key then true else contains row' key
  end.

(** [row[key]] *)
Fixpoint getitem (row : Series) (key : string) : res cell :=
  match row with
  | [] => raise (KeyError key)
  | (k, v) :: row' => if String.eqb k key then ok v else getitem row' key
  end.

(** [row[key] = v]: replaces the entry, or appends a new label. *)
Fixpoint setitem (row : Series) (key : string) (v : cell) : Series :=
  match row with
  | [] => [(key, v)]
  | (k, w) :: row' =>
      if String.eqb k key then (k, v) :: row' else (k, w) :: setitem row' key v
  end.

(** A number in arithmetic or in an ordering: a string raises. *)
Definition as_float (c : cell) : res float :=
  match c with
  | VNum x => ok x
  | VStr _ => raise TypeError
  end.

(** [int(x)] of a float: the integer part, towards zero; [NaN] and the
    infinities raise. *)
Definition int_of_float (x : float) : res Z :=
  match Prim2SF x with
  | S754_nan => raise ValueError
  | S754_infinity _ => raise OverflowError
  | S754_zero _ => ok 0
  | S754_finite s m e => ok (cond_Zopp s (Z.shiftl (Zpos m) e))
  end.

(** A number proper: neither [NaN] nor an infinity. *)
Definition finite (x : float) : bool :=
  match Prim2SF x with
  | S754_zero _ | S754_finite _ _ _ => true
  | S754_infinity _ | S754_nan => false
  end.

(** The rational a finite binary64 stands for: [m * 2^e] with its
    sign. *)
Definition value (x : float) : option Q :=
  match Prim2SF x with
  | S754_zero _ => Some (0 # 1)%Q
  | S754_finite s m e =>
      Some match e with
           | Zneg k => (cond_Zopp s (Zpos m) # 2 ^ k)%Q
           | _ => inject_Z (cond_Zopp s (Zpos m * 2 ^ e))
           end
  | S754_infinity _ | S754_nan => None
  end.

(** The same number counted in units of [2^-1074], the spacing of the
    smallest binary64 values: every finite binary64 is a whole number of
    them. *)
Definition scaled (x : spec_float) : option Z :=
  match x with
  | S754_zero _ => Some 0
  | S754_finite s m e => Some (cond_Zopp s (Zpos m * 2 ^ (e + 1074)))
  | S754_infinity _ | S754_nan => None
  end.

(** [n] is [q] with its fraction dropped: the integer next to [q] on
    the side of zero. *)
Definition truncation (q : Q) (n : Z) : Prop :=
  ((0 <= q)%Q -> (inject_Z n <= q)%Q /\ (q < inject_Z (n + 1))%Q) /\
  ((q <= 0)%Q -> (inject_Z (n - 1) < q)%Q /\ (q <= inject_Z n)%Q).

(** [x == y] of two cells, as the elementwise [==] of pandas gives it:
    numbers by IEEE equality, strings by content, a number and a string
    are different. *)
Definition cell_eqb (a b : cell) : bool :=
  match a, b with
  | VNum x, VNum y => (x =? y)%float
  | VStr s, VStr t => String.eqb s t
  | _, _ => false
  end.

(** [format(n, ",")] *)
Fixpoint commas (rev_digits : list ascii) (seen : nat) : list ascii :=
  match rev_digits with
  | [] => []
  | d :: rest =>
      if Nat.eqb seen 3 then ","%char :: d :: commas rest 1
      else d :: commas rest (S seen)
  end.

Definition digits (n : Z) : list ascii :=
  list_ascii_of_string (NilZero.string_of_uint (N.to_uint (Z.to_N n))).

Definition format_comma (n : Z) : string :=
  String.append
    (if n <? 0 then "-" else "")
    (string_of_list_ascii (rev (commas (rev (digits (Z.abs n))) 0))).

(** [float(n)] of an integer: the nearest binary64, ties to even. *)
Definition float_of_Z (n : Z) : float :=
  SF2Prim (binary_normalize prec emax n 0 false).

(** The binary64 nearest to [x ** m] for a whole [m >= 1], ties to
    even, which is what IEEE 754 asks of [pow].  A binary64 number is
    [+-mx * 2^e], so its power is [(+-mx)^m * 2^(e*m)], exactly. *)
Definition power (x : float) (m : positive) : float :=
  SF2Prim
    match Prim2SF x with
    | S754_finite s mx e =>
        binary_normalize prec emax
          (cond_Zopp s (Zpos mx) ^ Zpos m) (e * Zpos m) false
    | S754_zero s => S754_zero (s && Z.odd (Zpos m))
    | S754_infinity s => S754_infinity (s && Z.odd (Zpos m))
    | S754_nan => S754_nan
    end.

(** [g] is [x ^ m] to within half a unit in its last place: off by at
    most [2^-53] of the power. *)
Definition nearest_to_power (g x : float) (m : Z) : Prop :=
  exists vg vx,
    value g = Some vg /\ value x = Some vx
    /\ (Qabs (vg - vx ^ m) <= vx ^ m * (1 # 2 ^ 53))%Q.

(** [str(n)] of an integer *)
Definition str_int (n : Z) : string :=
  NilZero.string_of_int (Z.to_int n).

(** What the script uses of Python's and pandas' libraries without
    this file giving it a definition: the properties below hold for
    every choice of these functions. *)
Record Lib : Type := {
  (** [x ** m] of a float and an integer (the C library's [pow]) *)
  pow : float -> Z -> float;
  (** [format(x, ".1%")] *)
  format_pct : float -> string;
  (** [str(x)] of a float *)
  str_float : float -> string;
  (** [int(s)] of a string *)
  int_str : string -> res Z;
  (** [Series.str.contains(pat)]: the text is compiled as a regular
      expression ([regex=True] is the default), which fails with
      [re.error] on a text that is not one; compiled, it is a test on
      the entries *)
  str_contains : string -> option (string -> bool);
  (** [s.split(sep)] *)
  str_split : string -> string -> list string;
  (** [s.strip()] *)
  str_strip : string -> string;
}.

(** [str(c)], also what [astype(str)] gives entry by entry *)
Definition str (L : Lib) (c : cell) : string :=
  match c with
  | VNum x => str_float L x
  | VStr s => s
  end.

(** [int(c)] *)
Definition int (L : Lib) (c : cell) : res Z :=
  match c with
  | VNum x => int_of_float x
  | VStr s => int_str L s
  end.

Declare Scope res_scope.
Delimit Scope res_scope with res.
Notation "'let?' x ':=' c 'in' k" := (rbind c (fun x => k))
  (at level 10, x name, c at level 100, k at level 200) : res_scope.

End Py.

Import Py.
Local Open Scope res_scope.

(** ** The calls to streamlit *)

Module St.

(** The table of the projection: the month column and one column of
    rendered balances per scenario, in the order they were added. *)
Record BalanceTable : Set := {
  months_col : list Z;
  scenario_cols : list (string * list string)
}.

(** One row of the chart's table: the year it is indexed by and the
    three ratio columns. *)
Record ChartRow : Set := {
  chart_year : Z;
  reserve_ratio : float;
  compliance_ratio : float;
  payment_fulfillment_ratio : float
}.

Inductive widget : Set :=
| st_warning (body : string)
| st_markdown (body : string)
| st_subheader (body : string)
| st_write (body : string)
| st_metric (label value : string)
| st_error (body : string)
| st_success (body : string)
| st_info (body : string)
| st_dataframe (columns : list string) (rows : list (list cell))
| st_dataframe_bal (df_bal : BalanceTable)
| st_line_chart (chart_df : list ChartRow).

(** A run of the script: what it has shown, and how it ended. *)
Definition ui (A : Type) : Type := (list widget * res A)%type.

Definition ret {A : Type} (a : A) : ui A := ([], ok a).

Definition bind {A B : Type} (c : ui A) (k : A -> ui B) : ui B :=
  match c with
  | (w, inl e) => (w, inl e)
  | (w, inr a) => let '(w', r) := k a in (w ++ w', r)
  end.

Definition emit (w : widget) : ui unit := ([w], ok tt).

Definition lift {A : Type} (r : res A) : ui A := ([], r).

(** [for x in l: body x] *)
Fixpoint for_each {A : Type} (l : list A) (body : A -> ui unit) : ui unit :=
  match l with
  | [] => ret tt
  | x :: l' => bind (body x) (fun _ => for_each l' body)
  end.

Definition shown {A : Type} (c : ui A) : list widget := fst c.
Definition outcome {A : Type} (c : ui A) : res A := snd c.

Declare Scope ui_scope.
Delimit Scope ui_scope with ui.
Notation "'let*' x ':=' c 'in' k" := (bind c (fun x => k))
  (at level 10, x name, c at level 100, k at level 200) : ui_scope.
Notation "c ';;' k" := (bind c (fun _ => k))
  (at level 100, k at level 200, right associativity) : ui_scope.

End St.

Import St.
Local Open Scope ui_scope.

(** ** The script *)

Module App.

(** The column labels the script names. *)
Definition COL_REGNO : string := "사업자번호".
Definition COL_NAME : string := "업체명".
Definition COL_P_RISK : string := "p_risk".
Definition COL_P_NORMAL : string := "p_normal".
Definition COL_JUDGEMENT : string := "final_judgement".
Definition COL_EXPECTED : string := "부족액_예상".
Definition COL_ACTUAL : string := "부족액_실제".
Definition COL_EXPLANATION : string := "explanation".

(** The headings of two blocks of the details. *)
Definition COMPARISON_HEADING : string := "### 📉 부족액 비교 (예상 vs 실제)".
Definition PROJECTION_HEADING : string :=
  "### 🔄 원리금 / 비원리금 리밸런싱 + 월별 예상 잔고".

(** *** 3) The final judgement (lines 47-49, 87-90) *)

Definition RISK_THRESHOLD : float := 0.7.

(** The lambda of line 48: [0 if r["p_risk"] >= 0.7 else 1]. *)
Definition final_judgement (p_risk : float) : Z :=
  if (RISK_THRESHOLD <=? p_risk)%float then 0 else 1.

Inductive Verdict : Set := RISK | NORMAL.

(** The branch of line 87: [if row["final_judgement"] == 0]. *)
Definition verdict_of (judgement : cell) : Verdict :=
  if cell_eqb judgement (VNum 0) then RISK else NORMAL.

(** A probability: [0 <= p <= 1]. *)
Definition in_unit_interval (p : float) : bool :=
  ((0 <=? p) && (p <=? 1))%float.

(** The judgement of a probability, from the lambda to the branch. *)
Definition judge (p_risk : float) : Verdict :=
  verdict_of (VNum (float_of_Z (final_judgement p_risk))).

(** One row of [result.apply(..., axis=1)] and of the assignment to the
    new column, whose 0 and 1 are held as the numbers 0.0 and 1.0; a row
    without [p_risk] raises [KeyError], a [p_risk] that is a string
    raises [TypeError]. *)
Definition judge_row (r : Series) : res Series :=
  let? c := getitem r COL_P_RISK in
  let? p := as_float c in
  ok (setitem r COL_JUDGEMENT (VNum (float_of_Z (final_judgement p)))).

(** *** The shortfall comparison (lines 103-109) *)

Inductive ComparisonResult : Set :=
| ACTUAL_EXCEEDS_EXPECTED
| ACTUAL_BELOW_EXPECTED
| EQUAL.

(** The three branches on [diff]: [diff > 0], [diff < 0], else. *)
Definition classify (diff : float) : ComparisonResult :=
  if (0 <? diff)%float then ACTUAL_EXCEEDS_EXPECTED
  else if (diff <? 0)%float then ACTUAL_BELOW_EXPECTED
  else EQUAL.

(** [diff = row["부족액_실제"] - row["부족액_예상"]] and its branch. *)
Definition compare (expected actual : float) : float * ComparisonResult :=
  let diff := (actual - expected)%float in
  (diff, classify diff).

(** *** The yearly indicators (lines 164-176) *)

(** One row of the table [load_raw_data] returns: the two identity
    columns, the year as the integer the loader made of it, and the six
    amounts the ratios are taken of. *)
Record RawRow : Set := {
  raw_regno : cell;                              (* 사업자번호 *)
  raw_name : cell;                               (* 업체명 *)
  raw_year : Z;                                  (* 기준연도 *)
  reserve_amount : float;                        (* 적립금 *)
  minimum_required_reserve : float;              (* 최소적립금(적립기준액) *)
  total_evaluated_reserve : float;               (* 평가적립금합계 *)
  continuing_basis_liability_reserve : float;    (* 계속기준책임준비금 *)
  contribution_paid_amount : float;              (* 부담금납입액 *)
  contribution_assessed_amount : float           (* 부담금산정액 *)
}.

(** Lines 164-167: the rows of the company. *)
Definition firm_data (row : Series) (raw_df : list RawRow) : res (list RawRow) :=
  if contains row COL_REGNO then
    let? key := getitem row COL_REGNO in
    ok (filter (fun r => cell_eqb (raw_regno r) key) raw_df)
  else
    let? key := getitem row COL_NAME in
    ok (filter (fun r => cell_eqb (raw_name r) key) raw_df).

(** An identity entry with nothing in it: the missing value a blank
    CSV field is read as, or an empty string. *)
Definition is_blank (c : cell) : bool :=
  match c with
  | VNum x => negb (x =? x)%float
  | VStr s => String.eqb s ""
  end.

(** The lookup as the specification words it: by registration number
    when that entry is present and not blank, by name otherwise. *)
Definition firm_data_as_specified (row : Series) (raw_df : list RawRow)
  : res (list RawRow) :=
  match getitem row COL_REGNO with
  | inr key =>
      if is_blank key then
        let? name := getitem row COL_NAME in
        ok (filter (fun r => cell_eqb (raw_name r) name) raw_df)
      else ok (filter (fun r => cell_eqb (raw_regno r) key) raw_df)
  | inl _ =>
      let? name := getitem row COL_NAME in
      ok (filter (fun r => cell_eqb (raw_name r) name) raw_df)
  end.

(** Lines 170-174, row by row: the three new columns and the selection
    of the chart's columns. *)
Definition chart_row (r : RawRow) : ChartRow :=
  {| chart_year := raw_year r;
     reserve_ratio := (reserve_amount r / minimum_required_reserve r)%float;
     compliance_ratio :=
       (total_evaluated_reserve r / continuing_basis_liability_reserve r)%float;
     payment_fulfillment_ratio :=
       (contribution_paid_amount r / contribution_assessed_amount r)%float |}.

Definition chart_df (firm : list RawRow) : list ChartRow := map chart_row firm.

(** *** The rebalancing projection (lines 119-137) *)

(** The label of the month column and the names of the scenarios. *)
Definition MONTHS_LABEL : string := "n개월 후".
Definition CONSERVATIVE : string := "보수형 (원리금70%)".
Definition BALANCED : string := "균형형 (50:50)".
Definition AGGRESSIVE : string := "공격형 (비원리금70%)".

(** The dictionary of line 121, in insertion order: the name and the
    pair [(principal_amt, non_principal_amt)]. *)
Definition scenarios (total : float) : list (string * (float * float)) :=
  [ (CONSERVATIVE, (total * 0.7, total * 0.3)%float);
    (BALANCED, (total * 0.5, total * 0.5)%float);
    (AGGRESSIVE, (total * 0.3, total * 0.7)%float) ].

(** The table of the specification: the share of the total each
    scenario puts in the principal-guaranteed and in the non-principal
    bucket. *)
Definition allocation : list (string * (float * float)) :=
  [ (CONSERVATIVE, (0.70, 0.30)%float);
    (BALANCED, (0.50, 0.50)%float);
    (AGGRESSIVE, (0.30, 0.70)%float) ].

(** The balance as the specification writes it, in exact arithmetic:
    [total * fraction_p * (1 + 0.05/12)^m
     + total * fraction_n * (1 + 0.10/12)^m]. *)
Definition balance_as_specified (total fraction_p fraction_n : Q) (m : Z) : Q :=
  (total * fraction_p * (1 + (5 # 100) / 12) ^ m
   + total * fraction_n * (1 + (10 # 100) / 12) ^ m)%Q.

(** What only the projection shows: its heading, the line on its
    assumptions and its table. *)
Definition is_projection (w : widget) : bool :=
  match w with
  | st_markdown body => String.eqb body PROJECTION_HEADING
  | st_write _ => true
  | st_dataframe_bal _ => true
  | _ => false
  end.

(** [list(range(1, 13))] *)
Definition months : list Z := [1; 2; 3; 4; 5; 6; 7; 8; 9; 10; 11; 12].

Section WithLib.

Variable L : Lib.

(** Line 133. *)
Definition bal (principal_amt non_principal_amt : float) (m : Z) : float :=
  (principal_amt * pow L (1 + 0.05 / 12) m
   + non_principal_amt * pow L (1 + 0.10 / 12) m)%float.

(** Line 134: [f"{int(bal):,} 원"]. *)
Definition balance_cell (principal_amt non_principal_amt : float) (m : Z)
  : res string :=
  let? n := int_of_float (bal principal_amt non_principal_amt m) in
  ok (format_comma n ++ " 원")%string.

(** Lines 130-135: one scenario after the other, month by month; the
    first [int] that raises ends the loop. *)
Definition balance_column (s : string * (float * float))
  : res (string * list string) :=
  let '(name, (principal_amt, non_principal_amt)) := s in
  let? balances := rmap (balance_cell principal_amt non_principal_amt) months in
  ok (name, balances).

Definition df_bal (total : float) : res BalanceTable :=
  let? cols := rmap balance_column (scenarios total) in
  ok {| months_col := months; scenario_cols := cols |}.

(** *** 4) The details of one row (lines 76-178) *)

(** Lines 104-109: the message of each branch. *)
Definition comparison_message (diff : float) : ui unit :=
  match classify diff with
  | ACTUAL_EXCEEDS_EXPECTED =>
      let* n := lift (int_of_float diff) in
      emit (st_error
              ("⚠️ 실제 부족액이 예상보다 " ++ format_comma n ++ " 원 더 큼")%string)
  | ACTUAL_BELOW_EXPECTED =>
      let* n := lift (int_of_float diff) in
      emit (st_success
              ("✅ 실제 부족액이 예상보다 " ++ format_comma (Z.abs n) ++ " 원 적음")%string)
  | EQUAL =>
      emit (st_info "📊 실제와 예상 부족액이 동일합니다.")
  end.

(** Lines 114-137: the projection, behind its gate. *)
Definition projection_block (row : Series) : ui unit :=
  let* c := lift (getitem row COL_EXPECTED) in
  let* total := lift (as_float c) in
  if (0 <? total)%float then
    emit (st_markdown "---") ;;
    emit (st_markdown PROJECTION_HEADING) ;;
    emit (st_write "가정: 원리금 보장 5%, 비원리금 10% (연이율, 1년 만기 기준)") ;;
    let* t := lift (df_bal total) in
    emit (st_dataframe_bal t)
  else ret tt.

(** Lines 95-137. *)
Definition shortfall_block (row : Series) : ui unit :=
  if contains row COL_EXPECTED && contains row COL_ACTUAL then
    emit (st_markdown COMPARISON_HEADING) ;;
    let* ce := lift (getitem row COL_EXPECTED) in
    let* ne := lift (int L ce) in
    emit (st_metric "예상 부족액" (format_comma ne ++ " 원")%string) ;;
    let* ca := lift (getitem row COL_ACTUAL) in
    let* na := lift (int L ca) in
    emit (st_metric "실제 부족액" (format_comma na ++ " 원")%string) ;;
    let* actual := lift (as_float ca) in
    let* expected := lift (as_float ce) in
    comparison_message (fst (compare expected actual)) ;;
    projection_block row
  else ret tt.

(** Lines 87-90. *)
Definition verdict_block (row : Series) : ui unit :=
  let* j := lift (getitem row COL_JUDGEMENT) in
  match verdict_of j with
  | RISK => emit (st_error "🚨 리스크 (70%↑)")
  | NORMAL => emit (st_success "✅ 정상")
  end.

(** [f"{x:.1%}"] of a cell. *)
Definition percent (c : cell) : res string :=
  match c with
  | VNum x => ok (format_pct L x)
  | VStr _ => raise ValueError
  end.

(** Lines 76-90. *)
Definition header_block (row : Series) : ui unit :=
  emit (st_markdown "---") ;;
  let* name := lift (getitem row COL_NAME) in
  let* regno := lift (getitem row COL_REGNO) in
  emit (st_subheader ("🏢 " ++ str L name ++ " (" ++ str L regno ++ ")")%string) ;;
  let* p := lift (getitem row COL_P_RISK) in
  let* sp := lift (percent p) in
  emit (st_metric "리스크 확률" sp) ;;
  let* q := lift (getitem row COL_P_NORMAL) in
  let* sq := lift (percent q) in
  emit (st_metric "정상 확률" sq) ;;
  emit (st_markdown "**최종 판정:**") ;;
  verdict_block row.

(** Lines 142-147. *)
Definition explanation_block (row : Series) : ui unit :=
  let* j := lift (getitem row COL_JUDGEMENT) in
  match verdict_of j with
  | RISK =>
      emit (st_markdown "### 📌 설명 근거") ;;
      let* e := lift (getitem row COL_EXPLANATION) in
      for_each (str_split L (str L e) " / ")
        (fun line =>
           if String.eqb (str_strip L line) "" then ret tt
           else emit (st_markdown ("- ✔ " ++ str_strip L line)%string))
  | NORMAL => ret tt
  end.

(** Lines 152-178. *)
Definition trend_block (row : Series) (raw_df : list RawRow) : ui unit :=
  emit (st_markdown "---") ;;
  emit (st_markdown "### 📈 연도별 지표 트렌드") ;;
  let* firm := lift (firm_data row raw_df) in
  match firm with
  | _ :: _ => emit (st_line_chart (chart_df firm))
  | [] => emit (st_warning "해당 기업의 원본 연도별 데이터가 없습니다.")
  end.

Definition details (row : Series) (raw_df : list RawRow) : ui unit :=
  header_block row ;;
  shortfall_block row ;;
  explanation_block row ;;
  trend_block row raw_df.

(** *** 2) The search (lines 34-42) *)

(** [df[key]]: a column of the table. *)
Definition column (df : list Series) (key : string) : res (list cell) :=
  rmap (fun r => getitem r key) df.

(** [col.astype(str).str.contains(pat)]: the pattern is compiled
    once, before any entry is looked at. *)
Definition contains_column (col : list cell) (pat : string)
  : res (list bool) :=
  match str_contains L pat with
  | None => raise ReError
  | Some found_in => ok (map (fun c => found_in (str L c)) col)
  end.

(** Lines 36-37, left to right: the column of the registration
    numbers and its test, then the column of the names and its test,
    then the [|] of the two. *)
Definition mask (df : list Series) (company : string) : res (list bool) :=
  let? regnos := column df COL_REGNO in
  let? by_regno := contains_column regnos company in
  let? names := column df COL_NAME in
  let? by_name := contains_column names company in
  ok (map (fun ab => fst ab || snd ab) (combine by_regno by_name)).

(** [df[mask]] *)
Definition rows_where (df : list Series) (keep : list bool) : list Series :=
  map fst (filter snd (combine df keep)).

Definition search (df : list Series) (company : string) : ui (list Series) :=
  if String.eqb company "" then ret df
  else
    let* keep := lift (mask df company) in
    let result := rows_where df keep in
    match result with
    | [] => emit (st_warning "검색 결과 없음") ;; ret result
    | _ :: _ => ret result
    end.

(** The mask of lines 36-37 read on one row: that of the table
    made of this row alone. *)
Definition search_mask (company : string) (r : Series) : res bool :=
  let? keep := mask [r] company in
  ok (hd false keep).

(** *** The statistics, the checkbox and the table (lines 51-70) *)

Definition judgement_is (v : float) (r : Series) : res bool :=
  let? j := getitem r COL_JUDGEMENT in
  ok (cell_eqb j (VNum v)).

Definition statistics (result : list Series) : ui unit :=
  emit (st_markdown "### 전체 통계") ;;
  emit (st_metric "전체 기업 수" (str_int (Z.of_nat (List.length result)))) ;;
  let* risky := lift (rfilter (judgement_is 0) result) in
  emit (st_metric "리스크 기업 수" (str_int (Z.of_nat (List.length risky)))) ;;
  let* normal := lift (rfilter (judgement_is 1) result) in
  emit (st_metric "정상 기업 수" (str_int (Z.of_nat (List.length normal)))).

(** The columns of a table, read off its first row. *)
Definition columns (result : list Series) : list string :=
  match result with
  | [] => []
  | r :: _ => map fst r
  end.

Definition show_cols (result : list Series) : list string :=
  [COL_REGNO; COL_NAME; COL_P_RISK; COL_P_NORMAL; COL_JUDGEMENT]
    ++ filter (fun col => existsb (String.eqb col) (columns result))
         [COL_EXPECTED; COL_ACTUAL].

Definition table (result : list Series) : ui unit :=
  emit (st_subheader "기업별 예측 결과") ;;
  let cols := show_cols result in
  let* rows := lift (rmap (fun r => rmap (getitem r) cols) result) in
  emit (st_dataframe cols rows).

(** The rows that reach the table the details are taken from: kept
    by the search, and judged at risk when the checkbox is set. *)
Definition selected (company : string) (show_risk_only : bool)
    (r : Series) : bool :=
  (String.eqb company "" || holds (search_mask company r))
  && (negb show_risk_only
      || holds (let? j := judge_row r in judgement_is 0 j)).

(** *** The whole script *)

(** Lines 34-70: the table the details are taken from, after the
    search, the judgement and the checkbox.  (On a table with no row
    [apply] returns a frame instead of a column, and what the
    assignment of line 47 then does is pandas' own; the model goes on
    with the empty table, which has no details.) *)
Definition overview (df : list Series) (company : string)
    (show_risk_only : bool) : ui (list Series) :=
  let* found := search df company in
  let* judged := lift (rmap judge_row found) in
  statistics judged ;;
  let* result :=
    (if show_risk_only then lift (rfilter (judgement_is 0) judged)
     else ret judged) in
  table result ;;
  ret result.

(** Lines 75-178: [if not result.empty: row = result.iloc[0] ...]. *)
Definition detail_section (result : list Series) (raw_df : list RawRow)
  : ui unit :=
  match result with
  | [] => ret tt
  | row :: _ => details row raw_df
  end.

(** One run: the prediction table and the indicator table as the two
    loaders return them, the text of the search box and the state of
    the checkbox. *)
Definition main (df : list Series) (raw_df : list RawRow)
    (company : string) (show_risk_only : bool) : ui unit :=
  let* result := overview df company show_risk_only in
  detail_section result raw_df.

End WithLib.

End App.

(** ** Tables as the loader gives them *)

Module Table.

Import App.

(** A row the judgement puts at risk: a numeric [p_risk] of 0.7 or
    more. *)
Definition at_risk (r : Series) : bool :=
  match getitem r COL_P_RISK with
  | inr (VNum p) => (RISK_THRESHOLD <=? p)%float
  | _ => false
  end.

(** A prediction table the script can show: every row has the same
    labels, as the rows of one frame do, among them the two identity
    columns and the two probabilities, and [p_risk] is a number. *)
Definition well_formed (df : list Series) : Prop :=
  (forall r, In r df ->
     contains r COL_REGNO = true /\ contains r COL_NAME = true
     /\ contains r COL_P_NORMAL = true
     /\ exists p, getitem r COL_P_RISK = ok (VNum p))
  /\ (forall r r', In r df -> In r' df -> map fst r = map fst r').

Definition not_comma (c : ascii) : bool := negb (Ascii.eqb c ",").

(** A rendered amount read without its thousands separators. *)
Definition without_commas (s : string) : string :=
  string_of_list_ascii (filter not_comma (list_ascii_of_string s)).

End Table.

(** ** A library to run the script with

    A stand-in for the functions of [Lib], enough to run the script on
    the examples below.  [x ** m] is the binary64 nearest to the exact
    power, which is what CPython returns for the twenty-four powers the
    script takes; a float is printed as the digits of its integer part;
    [contains] takes the patterns that are plain text and looks for them
    as substrings. *)

Module SimpleLib.

Definition pow (x : float) (m : Z) : float :=
  match m with
  | Zpos p => power x p
  | Z0 => 1%float
  | Zneg p => (1 / power x p)%float
  end.

Definition str_float (x : float) : string :=
  match int_of_float x with
  | inr n => str_int n
  | inl _ => "nan"
  end.

Definition format_pct (x : float) : string :=
  (str_float (x * 100) ++ "%")%string.

Fixpoint parse_digits (s : string) (acc : Z) : res Z :=
  match s with
  | EmptyString => ok acc
  | String c s' =>
      let d := Z.of_nat (nat_of_ascii c) - 48 in
      if (0 <=? d) && (d <=? 9) then parse_digits s' (10 * acc + d)
      else raise ValueError
  end.

Definition int_str (s : string) : res Z :=
  match s with
  | EmptyString => raise ValueError
  | _ => parse_digits s 0
  end.

(** Whether [pat] occurs in [s]. *)
Fixpoint occurs (s pat : string) : bool :=
  if String.prefix pat s then true
  else match s with
       | EmptyString => false
       | String _ s' => occurs s' pat
       end.

(** The characters a regular expression gives a meaning to. *)
Definition special (c : ascii) : bool :=
  existsb (Ascii.eqb c) (list_ascii_of_string ".^$*+?{}[]\|()").

(** A pattern without special characters finds its own occurrences.
    This stand-in takes no other pattern: among those it refuses are
    the texts that are no regular expression, such as ["("]. *)
Definition str_contains (pat : string) : option (string -> bool) :=
  if existsb special (list_ascii_of_string pat) then None
  else Some (fun s => occurs s pat).

(** Splits at each occurrence of the separator, left to right. *)
Fixpoint split_from (fuel : nat) (s sep cur : string) : list string :=
  match fuel with
  | O => [cur]
  | S fuel' =>
      match s with
      | EmptyString => [cur]
      | String c s' =>
          if String.prefix sep s
          then cur :: split_from fuel' (substring (String.length sep)
                                          (String.length s) s) sep ""
          else split_from fuel' s' sep (cur ++ String c "")%string
      end
  end.

Definition str_split (s sep : string) : list string :=
  split_from (S (String.length s)) s sep "".

Fixpoint lstrip (s : string) : string :=
  match s with
  | String " " s' => lstrip s'
  | _ => s
  end.

Definition reverse (s : string) : string :=
  string_of_list_ascii (rev (list_ascii_of_string s)).

Definition str_strip (s : string) : string :=
  reverse (lstrip (reverse (lstrip s))).

Definition lib : Lib :=
  {| Py.pow := pow;
     Py.format_pct := format_pct;
     Py.str_float := str_float;
     Py.int_str := int_str;
     Py.str_contains := str_contains;
     Py.str_split := str_split;
     Py.str_strip := str_strip |}.

End SimpleLib.

(** ** Sample tables *)

Module Sample.

Import App.

Definition prediction (regno name : cell) (p_risk p_normal : float)
    (expected actual : float) (explanation : string) : Series :=
  [ (COL_REGNO, regno); (COL_NAME, name);
    (COL_P_RISK, VNum p_risk); (COL_P_NORMAL, VNum p_normal);
    (COL_EXPLANATION, VStr explanation);
    (COL_EXPECTED, VNum expected); (COL_ACTUAL, VNum actual) ].

Definition alpha : Series :=
  prediction (VStr "101-81-00001") (VStr "Alpha") 0.82 0.18
    1000000 1500000 "적립률 하락 / 납입 지연".

Definition beta : Series :=
  prediction (VStr "101-81-00002") (VStr "Beta") 0.35 0.65 0 0 "".

Definition gamma : Series :=
  prediction (VStr "101-81-00003") (VStr "Alphabet") 0.91 0.09
    1000 800 "준수비율 미달".

Definition df : list Series := [beta; alpha; gamma].

(** A row whose expected shortfall is left empty in the file. *)
Definition delta : Series :=
  prediction (VStr "101-81-00004") (VStr "Delta") 0.75 0.25
    nan 800 "납입 지연".

(** A row as the details get it, with its judgement. *)
Definition judged (r : Series) : Series :=
  match judge_row r with
  | inr j => j
  | inl _ => r
  end.

Definition yearly (regno name : cell) (year : Z) (a b c d e f : float) : RawRow :=
  {| raw_regno := regno; raw_name := name; raw_year := year;
     reserve_amount := a; minimum_required_reserve := b;
     total_evaluated_reserve := c; continuing_basis_liability_reserve := d;
     contribution_paid_amount := e; contribution_assessed_amount := f |}.

(** The rows of one company, as a file may list them: not by year. *)
Definition raw_df : list RawRow :=
  [ yearly (VStr "101-81-00001") (VStr "Alpha") 2016 90 100 80 100 70 100;
    yearly (VStr "101-81-00002") (VStr "Beta") 2016 10 10 10 10 10 10;
    yearly (VStr "101-81-00001") (VStr "Alpha") 2014 50 100 60 100 0 0;
    yearly (VStr "101-81-00001") (VStr "Alpha") 2015 75 100 3 0 50 100 ].

End Sample.

(** ** Facts about binary64 numbers *)

Module FloatFacts.

Lemma SFcompare_antisym (x y : spec_float) :
  SFcompare y x = option_map CompOpp (SFcompare x y).
Proof.
  destruct x as [s| s| |s m e], y as [t| t| |t n f]; simpl;
    try destruct s; try destruct t; simpl; try reflexivity.
  - rewrite (Z.compare_antisym f e).
    destruct (f ?= e); simpl; try reflexivity.
    pose proof (Pos.compare_cont_antisym m n Eq) as H. simpl in H.
    change (PosDef.Pos.compare_cont Eq m n) with (Pos.compare_cont Eq m n).
    change (PosDef.Pos.compare_cont Eq n m) with (Pos.compare_cont Eq n m).
    now rewrite H.
  - rewrite (Z.compare_antisym f e).
    destruct (f ?= e); simpl; try reflexivity.
    pose proof (Pos.compare_cont_antisym m n Eq) as H. simpl in H.
    change (PosDef.Pos.compare_cont Eq m n) with (Pos.compare_cont Eq m n).
    change (PosDef.Pos.compare_cont Eq n m) with (Pos.compare_cont Eq n m).
    now rewrite <- H.
Qed.

Lemma ltb_leb_flip (x y : float) :
  (x <? y)%float = true -> (y <=? x)%float = false.
Proof.
  rewrite ltb_spec, leb_spec. unfold SFltb, SFleb.
  rewrite (SFcompare_antisym (Prim2SF x) (Prim2SF y)).
  destruct (SFcompare (Prim2SF x) (Prim2SF y)) as [[]|]; simpl; congruence.
Qed.

Lemma digits2_bounds (m : positive) :
  2 ^ (Zpos (digits2_pos m) - 1) <= Zpos m < 2 ^ Zpos (digits2_pos m).
Proof.
  induction m as [m IH|m IH|]; simpl digits2_pos.
  - rewrite Pos2Z.inj_succ.
    replace (Z.succ (Zpos (digits2_pos m)) - 1) with (Z.succ (Zpos (digits2_pos m) - 1)) by lia.
    rewrite !Z.pow_succ_r by lia. lia.
  - rewrite Pos2Z.inj_succ.
    replace (Z.succ (Zpos (digits2_pos m)) - 1) with (Z.succ (Zpos (digits2_pos m) - 1)) by lia.
    rewrite !Z.pow_succ_r by lia. lia.
  - simpl. lia.
Qed.

Lemma bounded_inv (m : positive) (e : Z) :
  bounded prec emax m e = true ->
  -1074 <= e <= 971 /\ Zpos m < 2 ^ 53 /\ (-1074 < e -> 2 ^ 52 <= Zpos m).
Proof.
  unfold bounded, canonical_mantissa, fexp, emin, prec, emax.
  intros H. apply andb_true_iff in H. destruct H as [Hc He].
  apply Z.eqb_eq in Hc. apply Z.leb_le in He.
  pose proof (digits2_bounds m) as [Hlo Hhi].
  set (d := Zpos (digits2_pos m)) in *.
  assert (Hd : 0 < d) by (unfold d; lia).
  assert (d <= 53) by lia.
  split; [lia|]. split.
  - apply Z.lt_le_trans with (1 := Hhi). apply Z.pow_le_mono_r; lia.
  - intros Hgt. assert (d = 53) by lia. subst d. rewrite H0 in Hlo. exact Hlo.
Qed.

Lemma scaled_lt_of_exp (m1 m2 : positive) (e1 e2 : Z) :
  bounded prec emax m1 e1 = true -> bounded prec emax m2 e2 = true ->
  e1 < e2 -> Zpos m1 * 2 ^ (e1 + 1074) < Zpos m2 * 2 ^ (e2 + 1074).
Proof.
  intros H1 H2 Hlt.
  apply bounded_inv in H1. apply bounded_inv in H2.
  destruct H1 as (He1 & Hm1 & _), H2 as (He2 & _ & Hm2).
  specialize (Hm2 ltac:(lia)).
  assert (Hp : 0 < 2 ^ (e1 + 1074)) by (apply Z.pow_pos_nonneg; lia).
  apply Z.lt_le_trans with (2 ^ 53 * 2 ^ (e1 + 1074)).
  - apply Z.mul_lt_mono_pos_r; assumption.
  - replace (2 ^ 53) with (2 ^ 52 * 2 ^ 1) by reflexivity.
    rewrite <- Z.mul_assoc, <- Z.pow_add_r by lia.
    apply Z.mul_le_mono_nonneg; try lia.
    apply Z.pow_le_mono_r; lia.
Qed.

Lemma compare_cont_Eq (m n : positive) :
  Pos.compare_cont Eq m n = (Zpos m ?= Zpos n).
Proof. reflexivity. Qed.

Lemma compare_pos_finite (m1 m2 : positive) (e1 e2 : Z) :
  bounded prec emax m1 e1 = true -> bounded prec emax m2 e2 = true ->
  match e1 ?= e2 with
  | Lt => Lt
  | Gt => Gt
  | Eq => Pos.compare_cont Eq m1 m2
  end = (Zpos m1 * 2 ^ (e1 + 1074) ?= Zpos m2 * 2 ^ (e2 + 1074)).
Proof.
  intros H1 H2. destruct (Z.compare_spec e1 e2) as [He|He|He].
  - subst e2. rewrite compare_cont_Eq.
    assert (Hp : 0 < 2 ^ (e1 + 1074)).
    { apply Z.pow_pos_nonneg; [lia|]. apply bounded_inv in H1. lia. }
    apply Zmult_compare_compat_r. lia.
  - symmetry. apply Z.compare_lt_iff. now apply scaled_lt_of_exp.
  - symmetry. apply Z.compare_gt_iff. now apply scaled_lt_of_exp.
Qed.

Lemma scaled_pos (m : positive) (e : Z) :
  bounded prec emax m e = true -> 0 < Zpos m * 2 ^ (e + 1074).
Proof.
  intros H. apply bounded_inv in H.
  apply Z.mul_pos_pos; [lia|]. apply Z.pow_pos_nonneg; lia.
Qed.

Lemma Some_inj {A : Type} (a b : A) : Some a = Some b -> a = b.
Proof. congruence. Qed.

Lemma SFcompare_scaled (x y : spec_float) (zx zy : Z) :
  valid_binary x = true -> valid_binary y = true ->
  scaled x = Some zx -> scaled y = Some zy ->
  SFcompare x y = Some (zx ?= zy).
Proof.
  intros Vx Vy Sx Sy.
  destruct x as [s| s| |s m e], y as [t| t| |t n f]; try discriminate;
    unfold scaled in Sx, Sy; cbn [SFcompare valid_binary] in *;
    apply Some_inj in Sx, Sy; subst zx zy.
  - reflexivity.
  - pose proof (scaled_pos n f Vy).
    destruct t; unfold cond_Zopp; f_equal; symmetry;
      [apply Z.compare_gt_iff|apply Z.compare_lt_iff]; lia.
  - pose proof (scaled_pos m e Vx).
    destruct s; unfold cond_Zopp; f_equal; symmetry;
      [apply Z.compare_lt_iff|apply Z.compare_gt_iff]; lia.
  - pose proof (scaled_pos m e Vx). pose proof (scaled_pos n f Vy).
    destruct s, t; unfold cond_Zopp; f_equal.
    + rewrite Z.compare_opp.
      rewrite <- (compare_pos_finite n m f e Vy Vx).
      rewrite (Z.compare_antisym f e).
      destruct (f ?= e); simpl; try reflexivity.
      change (PosDef.Pos.compare_cont Eq m n) with (Pos.compare_cont Eq m n).
      rewrite !compare_cont_Eq. rewrite (Z.compare_antisym (Zpos n) (Zpos m)).
      now destruct (Zpos n ?= Zpos m).
    + symmetry; apply Z.compare_lt_iff; lia.
    + symmetry; apply Z.compare_gt_iff; lia.
    + apply (compare_pos_finite m n e f Vx Vy).
Qed.

(** The rational value of a binary64 is its count of [2^-1074] units. *)
Lemma value_scaled (x : float) (q : Q) (z : Z) :
  value x = Some q -> scaled (Prim2SF x) = Some z ->
  (q == z # 2 ^ 1074)%Q.
Proof.
  unfold value, scaled. pose proof (Prim2SF_valid x) as V.
  destruct (Prim2SF x) as [s| s| |s m e]; try discriminate.
  - intros Hq Hz. apply Some_inj in Hq, Hz. subst q z. reflexivity.
  - intros Hq Hz. apply Some_inj in Hq, Hz. subst q z.
    cbn [valid_binary] in V. apply bounded_inv in V.
    destruct V as (He & _ & _).
    unfold Qeq. cbn [Qnum Qden].
    assert (P : Zpos (2 ^ 1074) = 2 ^ 1074) by (now rewrite Pos2Z.inj_pow).
    destruct e as [|k|k].
    + cbn [inject_Z Qnum Qden]. rewrite P, Z.pow_0_r, Z.mul_1_r, Z.add_0_l.
      destruct s; unfold cond_Zopp; lia.
    + cbn [inject_Z Qnum Qden]. rewrite P, Z.mul_1_r.
      rewrite Z.pow_add_r by lia.
      destruct s; unfold cond_Zopp; lia.
    + cbn [Qnum Qden]. rewrite P, Pos2Z.inj_pow.
      replace (2 ^ 1074) with (2 ^ (Zneg k + 1074) * 2 ^ Zpos k)
        by (rewrite <- Z.pow_add_r by lia; f_equal; lia).
      destruct s; unfold cond_Zopp; lia.
Qed.

Lemma value_some_scaled (x : float) (q : Q) :
  value x = Some q -> exists z, scaled (Prim2SF x) = Some z.
Proof.
  unfold value, scaled.
  destruct (Prim2SF x); try discriminate; eauto.
Qed.

Lemma compare_value (x y : float) (qx qy : Q) :
  value x = Some qx -> value y = Some qy ->
  SFcompare (Prim2SF x) (Prim2SF y) = Some (qx ?= qy)%Q.
Proof.
  intros Hx Hy.
  destruct (value_some_scaled x qx Hx) as [zx Sx].
  destruct (value_some_scaled y qy Hy) as [zy Sy].
  rewrite (SFcompare_scaled _ _ zx zy (Prim2SF_valid x) (Prim2SF_valid y) Sx Sy).
  f_equal.
  rewrite (Qcompare_comp _ _ (value_scaled x qx zx Hx Sx)
                         _ _ (value_scaled y qy zy Hy Sy)).
  unfold Qcompare. cbn [Qnum Qden].
  pose proof (Zmult_compare_compat_r zx zy (Zpos (2 ^ 1074)) ltac:(lia)) as H.
  now rewrite <- H.
Qed.

(** On finite numbers the binary64 orderings are those of the values. *)
Lemma leb_value (x y : float) (qx qy : Q) :
  value x = Some qx -> value y = Some qy ->
  ((x <=? y)%float = true <-> (qx <= qy)%Q).
Proof.
  intros Hx Hy. rewrite leb_spec. unfold SFleb.
  rewrite (compare_value x y qx qy Hx Hy).
  rewrite Qle_alt. destruct (qx ?= qy)%Q; split; congruence.
Qed.


Lemma eqb_value (x y : float) (qx qy : Q) :
  value x = Some qx -> value y = Some qy ->
  ((x =? y)%float = true <-> (qx == qy)%Q).
Proof.
  intros Hx Hy. rewrite eqb_spec. unfold SFeqb.
  rewrite (compare_value x y qx qy Hx Hy).
  rewrite Qeq_alt. destruct (qx ?= qy)%Q; split; congruence.
Qed.

(** *** Finite numbers and [int] *)

Lemma finite_value (x : float) :
  finite x = true <-> exists q, value x = Some q.
Proof.
  unfold finite, value. destruct (Prim2SF x); split;
    try (intros [q Hq]); try discriminate; eauto.
Qed.

Lemma int_of_float_finite (x : float) :
  finite x = true <-> exists n, int_of_float x = ok n.
Proof.
  unfold finite, int_of_float. destruct (Prim2SF x); split;
    try (intros [q Hq]); try discriminate; eauto.
Qed.

Lemma truncation_of_integer (n : Z) : truncation (inject_Z n) n.
Proof.
  unfold truncation. rewrite <- !Zle_Qle, <- !Zlt_Qlt. lia.
Qed.

(** [int(x)] drops the fraction of [x]: it is the integer next to the
    value of [x] on the side of zero. *)
Lemma int_of_float_truncation (x : float) (n : Z) :
  int_of_float x = ok n -> exists q, value x = Some q /\ truncation q n.
Proof.
  unfold int_of_float, value.
  destruct (Prim2SF x) as [s| s| |s m e]; try discriminate;
    intros H; injection H as <-.
  - exists (0 # 1)%Q. split; [reflexivity|]. apply (truncation_of_integer 0).
  - eexists; split; [reflexivity|].
    destruct e as [|k|k].
    + rewrite Z.shiftl_mul_pow2 by lia. apply truncation_of_integer.
    + rewrite Z.shiftl_mul_pow2 by lia. apply truncation_of_integer.
    + rewrite Z.shiftl_div_pow2 by lia.
      change (- Zneg k) with (Zpos k).
      assert (P : Zpos (2 ^ k) = 2 ^ Zpos k) by (now rewrite Pos2Z.inj_pow).
      assert (D : 0 < 2 ^ Zpos k) by (apply Z.pow_pos_nonneg; lia).
      pose proof (Z.mul_div_le (Zpos m) _ D) as Lo.
      pose proof (Z.mul_succ_div_gt (Zpos m) _ D) as Hi.
      unfold truncation, Qle, Qlt. cbn [inject_Z Qnum Qden]. rewrite P.
      set (d := 2 ^ Zpos k) in *. set (a := Zpos m / d) in *.
      destruct s; unfold cond_Zopp; split; intros; nia.
Qed.

(** *** The difference of two finite numbers is a number *)

Lemma shr_1_nonneg (mrs : shr_record) :
  0 <= shr_m mrs -> 0 <= shr_m (shr_1 mrs).
Proof.
  destruct mrs as [m r s]. cbn [shr_m].
  destruct m as [|p|p]; [| |lia]; intros _; simpl.
  - lia.
  - destruct p; simpl; lia.
Qed.

Lemma iter_shr_1_nonneg (p : positive) (mrs : shr_record) :
  0 <= shr_m mrs -> 0 <= shr_m (iter_pos shr_1 p mrs).
Proof.
  revert mrs. induction p as [p IH|p IH|]; intros mrs H; simpl.
  - apply IH, IH, shr_1_nonneg, H.
  - apply IH, IH, H.
  - apply shr_1_nonneg, H.
Qed.

Lemma shr_fexp_nonneg (m e : Z) (l : location) :
  0 <= m -> 0 <= shr_m (fst (shr_fexp prec emax m e l)).
Proof.
  intros H. unfold shr_fexp, shr.
  assert (H0 : 0 <= shr_m (shr_record_of_loc m l))
    by (destruct l as [|[]]; exact H).
  destruct (fexp prec emax (Zdigits2 m + e) - e); cbn [fst]; try exact H0.
  apply iter_shr_1_nonneg, H0.
Qed.

Lemma round_nearest_even_nonneg (m : Z) (l : location) :
  0 <= m -> 0 <= round_nearest_even m l.
Proof.
  intros H. destruct l as [|[]]; simpl; try lia.
  destruct (Z.even m); lia.
Qed.




(** *** Sums and products that stay on the positive side *)

(** Zero, a positive number or the positive infinity. *)
Definition nonneg (x : spec_float) : Prop :=
  match x with
  | S754_zero _ => True
  | S754_infinity s | S754_finite s _ _ => s = false
  | S754_nan => False
  end.

Lemma binary_round_aux_nonneg (mx ex : Z) (lx : location) :
  0 <= mx -> nonneg (binary_round_aux prec emax false mx ex lx).
Proof.
  intros H. unfold binary_round_aux.
  pose proof (shr_fexp_nonneg mx ex lx H) as H1.
  destruct (shr_fexp prec emax mx ex lx) as [mrs' e']. cbn [fst] in H1.
  pose proof (shr_fexp_nonneg _ e' loc_Exact
                (round_nearest_even_nonneg _ (loc_of_shr_record mrs') H1)) as H2.
  destruct (shr_fexp prec emax _ e' loc_Exact) as [mrs'' e''].
  cbn [fst] in H2.
  destruct (shr_m mrs'') as [|p|p]; [exact I| |lia].
  destruct (e'' <=? emax - prec); reflexivity.
Qed.

Lemma positive_nonneg (x : float) :
  (0 <? x)%float = true -> nonneg (Prim2SF x).
Proof.
  rewrite ltb_spec. unfold SFltb.
  change (Prim2SF 0) with (S754_zero false).
  destruct (Prim2SF x) as [s|s| |s m e]; cbn [SFcompare nonneg];
    try discriminate; now destruct s.
Qed.

Lemma mul_nonneg (x y : float) :
  nonneg (Prim2SF x) ->
  (exists m e, Prim2SF y = S754_finite false m e) ->
  nonneg (Prim2SF (x * y)).
Proof.
  intros Hx (m & e & Hy). rewrite mul_spec, Hy. unfold SF64mul.
  destruct (Prim2SF x) as [s|s| |s mx ex]; cbn [nonneg SFmul] in *.
  - exact I.
  - now subst s.
  - exact Hx.
  - subst s. cbn [xorb]. now apply binary_round_aux_nonneg.
Qed.

Lemma add_nonneg (x y : float) :
  nonneg (Prim2SF x) -> nonneg (Prim2SF y) -> nonneg (Prim2SF (x + y)).
Proof.
  intros Hx Hy. rewrite add_spec. unfold SF64add.
  destruct (Prim2SF x) as [s|s| |s mx ex], (Prim2SF y) as [t|t| |t my ey];
    cbn [nonneg SFadd] in *; try contradiction; subst;
    try exact I; try reflexivity.
  - now destruct s, t.
  - cbn [cond_Zopp].
    destruct (shl_align mx ex _) as [ax ?], (shl_align my ey _) as [ay ?].
    cbn [fst]. change (Z.pos ax + Z.pos ay) with (Z.pos (ax + ay)).
    unfold binary_normalize, binary_round.
    destruct (shl_align (ax + ay) _ _) as [mz ez].
    now apply binary_round_aux_nonneg.
Qed.

Lemma int_of_nonneg (x : float) :
  nonneg (Prim2SF x) -> finite x = false ->
  int_of_float x = raise OverflowError.
Proof.
  unfold finite, int_of_float.
  destruct (Prim2SF x) as [s|s| |s m e]; cbn [nonneg];
    intros H F; try discriminate F; [reflexivity|contradiction].
Qed.

(** [int] of what is not a number proper: [OverflowError] on an
    infinity, [ValueError] on [NaN]. *)
Lemma int_of_non_finite (x : float) :
  finite x = false ->
  int_of_float x
  = raise (if (x =? x)%float then OverflowError else ValueError).
Proof.
  unfold finite, int_of_float. rewrite eqb_spec. unfold SFeqb.
  destruct (Prim2SF x) as [s|s| |s m e]; intros H; try discriminate H.
  - now destruct s.
  - reflexivity.
Qed.

End FloatFacts.

Import App.

(** ** The judgement rule *)

Section Judgement.

Lemma judge_of_threshold (p : float) :
  judge p = if (RISK_THRESHOLD <=? p)%float then RISK else NORMAL.
Proof.
  unfold judge, final_judgement.
  destruct (RISK_THRESHOLD <=? p)%float; reflexivity.
Qed.

Lemma unit_interval_finite (p : float) :
  in_unit_interval p = true -> finite p = true.
Proof.
  unfold in_unit_interval, finite. rewrite !leb_spec.
  change (Prim2SF 0) with (S754_zero false).
  destruct (Prim2SF p) as [s|[]| |s m e]; try reflexivity; discriminate.
Qed.

(** The threshold is the binary64 nearest to 7/10, a little below it. *)
Lemma threshold_value :
  value RISK_THRESHOLD = Some (6305039478318694 # 9007199254740992)%Q.
Proof. reflexivity. Qed.

Lemma threshold_below_seven_tenths :
  (6305039478318694 # 9007199254740992 < 7 # 10)%Q
  /\ ((7 # 10) - (1 # 9007199254740992)
      < 6305039478318694 # 9007199254740992)%Q.
Proof. split; reflexivity. Qed.

(** C1.  For a probability in [[0,1]] the judgement is RISK exactly when
    [p_risk >= 0.70] and NORMAL otherwise, in the binary64 ordering and,
    the same, in the ordering of the values the two numbers stand for;
    at the boundary [judge 0.70 = RISK] and [judge 0.6999 = NORMAL]. *)
Theorem judge_threshold (p_risk : float) :
  in_unit_interval p_risk = true ->
  (judge p_risk = RISK <-> (RISK_THRESHOLD <=? p_risk)%float = true) /\
  (judge p_risk = NORMAL <-> (RISK_THRESHOLD <=? p_risk)%float = false) /\
  (exists p, value p_risk = Some p /\
     (judge p_risk = RISK <-> (6305039478318694 # 9007199254740992 <= p)%Q)) /\
  judge 0.70 = RISK /\ judge 0.6999 = NORMAL.
Proof.
  intros Hp.
  apply unit_interval_finite, FloatFacts.finite_value in Hp.
  destruct Hp as [p Hp].
  pose proof (FloatFacts.leb_value _ _ _ _ threshold_value Hp) as Hle.
  rewrite judge_of_threshold.
  split; [|split; [|split; [exists p; split; [exact Hp|]|split; reflexivity]]].
  - destruct (RISK_THRESHOLD <=? p_risk)%float; split; congruence.
  - destruct (RISK_THRESHOLD <=? p_risk)%float; split; congruence.
  - rewrite <- Hle.
    destruct (RISK_THRESHOLD <=? p_risk)%float; split; congruence.
Qed.

Lemma judge_threshold_witness :
  in_unit_interval 0.82 = true /\ judge 0.82 = RISK.
Proof.
  split; [reflexivity|].
  apply (proj2 (proj1 (judge_threshold 0.82 eq_refl))). reflexivity.
Defined.

(** *** Outside the unit interval *)

Lemma above_one_at_threshold (p : float) :
  (1 <? p)%float = true -> (RISK_THRESHOLD <=? p)%float = true.
Proof.
  rewrite ltb_spec, leb_spec.
  change (Prim2SF 1) with (S754_finite false 4503599627370496 (-52)).
  change (Prim2SF RISK_THRESHOLD)
    with (S754_finite false 6305039478318694 (-53)).
  unfold SFltb, SFleb.
  destruct (Prim2SF p) as [s|[]| |[] m e]; cbn [SFcompare];
    try discriminate; try reflexivity.
  destruct (Z.compare_spec (-52) e) as [E|E|E];
    destruct (Z.compare_spec (-53) e) as [F|F|F];
    try lia; try discriminate; reflexivity.
Qed.

Lemma leb_false_ltb (x y : float) :
  SFcompare (Prim2SF x) (Prim2SF y) <> None ->
  (x <=? y)%float = false -> (y <? x)%float = true.
Proof.
  rewrite leb_spec, ltb_spec. unfold SFleb, SFltb.
  rewrite (FloatFacts.SFcompare_antisym (Prim2SF x) (Prim2SF y)).
  destruct (SFcompare (Prim2SF x) (Prim2SF y)) as [[]|]; simpl; congruence.
Qed.

Lemma outside_below_threshold (p : float) :
  in_unit_interval p = false -> (1 <? p)%float = false ->
  (RISK_THRESHOLD <=? p)%float = false.
Proof.
  intros Hu H1.
  destruct (p <=? 1)%float eqn:Hle.
  - unfold in_unit_interval in Hu. rewrite Hle, andb_true_r in Hu.
    revert Hu. rewrite !leb_spec.
    change (Prim2SF 0) with (S754_zero false).
    change (Prim2SF RISK_THRESHOLD)
      with (S754_finite false 6305039478318694 (-53)).
    unfold SFleb.
    destruct (Prim2SF p) as [s|[]| |[] m e]; cbn [SFcompare];
      try discriminate; try reflexivity.
  - destruct (SFcompare (Prim2SF p) (Prim2SF 1)) as [c|] eqn:Hc.
    + rewrite leb_false_ltb in H1; [discriminate|congruence|exact Hle].
    + rewrite leb_spec. unfold SFleb.
      change (Prim2SF 1) with (S754_finite false 4503599627370496 (-52)) in Hc.
      destruct (Prim2SF p) as [s|[]| |[] m e]; try discriminate Hc.
      reflexivity.
Qed.

(** C9, as the code has it.  No probability is rejected: a number
    outside [[0,1]] is judged by the same comparison, RISK above 1 and
    NORMAL below 0 or when it is [NaN]; only an entry that is not a
    number stops the judgement, with the language's [TypeError]. *)
Theorem judge_outside_unit_interval (p_risk : float) :
  in_unit_interval p_risk = false ->
  ((1 <? p_risk)%float = true -> judge p_risk = RISK) /\
  ((1 <? p_risk)%float = false -> judge p_risk = NORMAL) /\
  (forall (r : Series) (s : string),
      getitem r COL_P_RISK = ok (VStr s) -> judge_row r = raise TypeError) /\
  (forall r : Series,
      getitem r COL_P_RISK = ok (VNum p_risk) ->
      exists r', judge_row r = ok r').
Proof.
  intros Hu. rewrite judge_of_threshold. repeat split.
  - intros H. now rewrite (above_one_at_threshold _ H).
  - intros H. now rewrite (outside_below_threshold _ Hu H).
  - intros r s H. unfold judge_row. now rewrite H.
  - intros r H. unfold judge_row. rewrite H. simpl. eauto.
Qed.

Lemma judge_outside_unit_interval_witness :
  in_unit_interval 1.5 = false /\ judge 1.5 = RISK.
Proof.
  split; [reflexivity|].
  apply (proj1 (judge_outside_unit_interval 1.5 eq_refl)). reflexivity.
Defined.

(** C9 as stated fails: 1.5, -0.2 and [NaN] are outside [[0,1]] and each
    gets a verdict. *)
Lemma judge_accepts_out_of_range :
  in_unit_interval 1.5 = false /\ judge 1.5 = RISK /\
  in_unit_interval (-0.2) = false /\ judge (-0.2) = NORMAL /\
  in_unit_interval nan = false /\ judge nan = NORMAL /\
  judge_row [(COL_P_RISK, VNum 1.5)]
    = ok [(COL_P_RISK, VNum 1.5); (COL_JUDGEMENT, VNum 0)].
Proof. repeat split; reflexivity. Qed.

End Judgement.

(** ** The shortfall comparison *)

Section Comparison.





Example compare_examples :
  compare 1000 1500 = (500%float, ACTUAL_EXCEEDS_EXPECTED) /\
  compare 1000 1000 = (0%float, EQUAL) /\
  compare 1000 800 = ((-200)%float, ACTUAL_BELOW_EXPECTED).
Proof. repeat split; reflexivity. Qed.

End Comparison.

(** ** Facts about runs *)

Module UiFacts.

Lemma bind_ret_l {A B : Type} (a : A) (k : A -> ui B) : bind (ret a) k = k a.
Proof. unfold bind, ret, ok. now destruct (k a). Qed.

Lemma bind_ok {A B : Type} (c : ui A) (k : A -> ui B) (a : A) :
  outcome c = ok a ->
  bind c k = (shown c ++ shown (k a), outcome (k a)).
Proof.
  destruct c as [w [e|a']]; cbn [outcome snd]; intros H; [discriminate H|].
  injection H as ->. unfold bind. cbn [shown fst]. now destruct (k a).
Qed.

Lemma bind_emit {B : Type} (w : widget) (k : unit -> ui B) :
  bind (emit w) k = (w :: shown (k tt), outcome (k tt)).
Proof. unfold bind, emit, ok. now destruct (k tt). Qed.

Lemma bind_lift_ok {A B : Type} (a : A) (k : A -> ui B) :
  bind (lift (ok a)) k = k a.
Proof. apply (bind_ret_l a k). Qed.

Lemma bind_raise {A B : Type} (c : ui A) (k : A -> ui B) (e : exn) :
  outcome c = raise e -> bind c k = (shown c, raise e).
Proof.
  destruct c as [w [e'|a]]; cbn [outcome snd]; intros H; [|discriminate H].
  injection H as ->. reflexivity.
Qed.

(** What a run shows satisfies [P]. *)
Definition only {A : Type} (P : widget -> Prop) (c : ui A) : Prop :=
  Forall P (shown c).

Section Only.

Context {P : widget -> Prop}.

Lemma only_ret {A : Type} (a : A) : only P (ret a).
Proof. constructor. Qed.

Lemma only_lift {A : Type} (r : res A) : only P (lift r).
Proof. constructor. Qed.

Lemma only_emit (w : widget) : P w -> only P (emit w).
Proof. intros H. constructor; [exact H|constructor]. Qed.

Lemma only_bind {A B : Type} (c : ui A) (k : A -> ui B) :
  only P c -> (forall a, outcome c = ok a -> only P (k a)) ->
  only P (bind c k).
Proof.
  unfold only. destruct c as [w [e|a]]; cbn [shown fst outcome snd bind].
  - intros H _. exact H.
  - intros H K. specialize (K a eq_refl).
    destruct (k a) as [w' r]. cbn [shown fst] in *.
    apply Forall_app. split; assumption.
Qed.

Lemma only_for_each {A : Type} (l : list A) (body : A -> ui unit) :
  (forall x, In x l -> only P (body x)) -> only P (for_each l body).
Proof.
  induction l as [|x l IH]; intros H; cbn [for_each].
  - apply only_ret.
  - apply only_bind.
    + apply H. now left.
    + intros _ _. apply IH. intros y Hy. apply H. now right.
Qed.

End Only.

Lemma only_In {A : Type} (P : widget -> Prop) (c : ui A) (w : widget) :
  only P c -> In w (shown c) -> P w.
Proof. unfold only. rewrite Forall_forall. auto. Qed.

End UiFacts.

Import UiFacts.

(** Breaks a block into its calls: each [emit] leaves its widget to
    check, each bound result is introduced with its equation. *)
Ltac only_step :=
  first
    [ apply only_ret
    | apply only_lift
    | apply only_emit
    | apply only_bind; [|intros ? ?]
    | apply only_for_each; intros ? ? ].

Ltac only_blocks := repeat only_step.

(** ** The gates of the details *)

Section Gates.

Variable L : Lib.

(** The blocks outside the projection show nothing of it. *)
Definition plain (w : widget) : Prop := is_projection w = false.

Lemma plain_weaken (P : widget -> Prop) {A : Type} (c : ui A) :
  only plain c -> only (fun w => is_projection w = true -> P w) c.
Proof.
  unfold only. apply Forall_impl. unfold plain. intros w H H'. congruence.
Qed.

Lemma header_plain (row : Series) : only plain (header_block L row).
Proof.
  unfold header_block, verdict_block. only_blocks; try reflexivity.
  destruct (verdict_of _); only_blocks; reflexivity.
Qed.

Lemma explanation_plain (row : Series) : only plain (explanation_block L row).
Proof.
  unfold explanation_block. only_blocks.
  destruct (verdict_of _); only_blocks; try reflexivity.
  destruct (String.eqb _ _); only_blocks.
  unfold plain. cbn [is_projection].
  apply String.eqb_neq. intros E.
  apply (f_equal (fun s => String.get 0 s)) in E. discriminate E.
Qed.

Lemma trend_plain (row : Series) (raw_df : list RawRow) :
  only plain (trend_block row raw_df).
Proof.
  unfold trend_block.
  apply only_bind; [apply only_emit; reflexivity|intros _ _].
  apply only_bind; [apply only_emit; reflexivity|intros _ _].
  apply only_bind; [apply only_lift|intros firm _].
  destruct firm; apply only_emit; reflexivity.
Qed.

Lemma comparison_plain (diff : float) : only plain (comparison_message diff).
Proof.
  unfold comparison_message.
  destruct (classify diff); only_blocks; reflexivity.
Qed.

(** The condition of line 114 on a row. *)
Definition gate_open (row : Series) : Prop :=
  exists total,
    getitem row COL_EXPECTED = ok (VNum total)
    /\ (0 <? total)%float = true /\ (total <=? 0)%float = false.

Lemma projection_gated (row : Series) :
  only (fun w => is_projection w = true -> gate_open row)
       (projection_block L row).
Proof.
  unfold projection_block.
  apply only_bind; [apply only_lift|]. intros c Hc.
  apply only_bind; [apply only_lift|]. intros total Ht.
  destruct (0 <? total)%float eqn:Hpos; [|apply only_ret].
  assert (G : gate_open row).
  { exists total. cbn [outcome lift snd] in Hc, Ht.
    destruct c as [x|s]; [|discriminate Ht].
    injection Ht as ->. repeat split; try assumption.
    now apply FloatFacts.ltb_leb_flip. }
  only_blocks; intros _; exact G.
Qed.

Lemma shortfall_gated (row : Series) :
  only (fun w => is_projection w = true -> gate_open row)
       (shortfall_block L row).
Proof.
  unfold shortfall_block.
  destruct (contains row COL_EXPECTED && contains row COL_ACTUAL);
    [|apply only_ret].
  pose (shows_none := fun (w : widget) (E : is_projection w = false)
                        (H : is_projection w = true) =>
                        False_ind (gate_open row)
                          (eq_true_false_abs _ H E)).
  apply only_bind; [apply only_emit, shows_none; reflexivity|intros _ _].
  apply only_bind; [apply only_lift|intros ce _].
  apply only_bind; [apply only_lift|intros ne _].
  apply only_bind; [apply only_emit, shows_none; reflexivity|intros _ _].
  apply only_bind; [apply only_lift|intros ca _].
  apply only_bind; [apply only_lift|intros na _].
  apply only_bind; [apply only_emit, shows_none; reflexivity|intros _ _].
  apply only_bind; [apply only_lift|intros actual _].
  apply only_bind; [apply only_lift|intros expected _].
  apply only_bind; [apply plain_weaken, comparison_plain|intros _ _].
  apply projection_gated.
Qed.

Lemma details_gated (row : Series) (raw_df : list RawRow) :
  only (fun w => is_projection w = true -> gate_open row)
       (details L row raw_df).
Proof.
  unfold details.
  apply only_bind; [apply plain_weaken, header_plain|]. intros _ _.
  apply only_bind; [apply shortfall_gated|]. intros _ _.
  apply only_bind; [apply plain_weaken, explanation_plain|]. intros _ _.
  apply plain_weaken, trend_plain.
Qed.

(** C6.  Whatever the details of a row show of the projection, its
    heading, its line of assumptions or its table, is shown only when
    the expected shortfall of the row is a number greater than 0, so a
    row whose expected shortfall is 0 or less shows none of it. *)
Theorem projection_only_when_positive
    (row : Series) (raw_df : list RawRow) (w : widget) :
  In w (shown (details L row raw_df)) -> is_projection w = true ->
  exists total,
    getitem row COL_EXPECTED = ok (VNum total)
    /\ (0 <? total)%float = true /\ (total <=? 0)%float = false.
Proof.
  intros Hin Hw.
  exact (only_In _ _ w (details_gated row raw_df) Hin Hw).
Qed.

(** The same read from the other side: with an expected shortfall of 0
    or less, or one that is not a number, nothing of the projection is
    shown. *)
Lemma no_projection_without_shortfall
    (row : Series) (raw_df : list RawRow) (total : float) :
  getitem row COL_EXPECTED = ok (VNum total) ->
  (0 <? total)%float = false ->
  forall w, In w (shown (details L row raw_df)) -> is_projection w = false.
Proof.
  intros He Hz w Hin.
  destruct (is_projection w) eqn:Hw; [|reflexivity].
  destruct (only_In _ _ w (details_gated row raw_df) Hin Hw)
    as (total' & He' & Hpos & _).
  rewrite He in He'. injection He' as <-. congruence.
Qed.

(** *** The comparison and the presence of the two columns *)

Lemma contains_getitem (row : Series) (key : string) :
  contains row key = true <-> exists c, getitem row key = ok c.
Proof.
  induction row as [|[k v] row IH]; cbn [contains getitem].
  - split; [discriminate|intros [c H]; discriminate H].
  - destruct (String.eqb k key); [|exact IH].
    split; eauto.
Qed.

(** With both entries present and finite, the block shows the two
    amounts and goes on to the message of the comparison and to the
    projection block. *)
Lemma comparison_runs (row : Series) (expected actual : float) (ne na : Z) :
  getitem row COL_EXPECTED = ok (VNum expected) ->
  getitem row COL_ACTUAL = ok (VNum actual) ->
  int_of_float expected = ok ne -> int_of_float actual = ok na ->
  let rest := (comparison_message (fst (compare expected actual)) ;;
               projection_block L row) in
  shortfall_block L row
  = (st_markdown COMPARISON_HEADING
       :: st_metric "예상 부족액" (format_comma ne ++ " 원")%string
       :: st_metric "실제 부족액" (format_comma na ++ " 원")%string
       :: shown rest,
     outcome rest).
Proof.
  intros He Ha Hne Hna rest. unfold shortfall_block.
  rewrite (proj2 (contains_getitem row COL_EXPECTED)) by eauto.
  rewrite (proj2 (contains_getitem row COL_ACTUAL)) by eauto.
  cbn [andb].
  rewrite bind_emit, He, bind_lift_ok. cbn [Py.int]. rewrite Hne, bind_lift_ok.
  rewrite bind_emit, Ha, bind_lift_ok. cbn [Py.int]. rewrite Hna, bind_lift_ok.
  rewrite bind_emit. cbn [as_float]. rewrite !bind_lift_ok.
  reflexivity.
Qed.

(** An entry that is present but missing its value ([NaN]) does not
    skip the block: the block is entered and [int] raises. *)
Lemma comparison_of_missing_value (row : Series) :
  getitem row COL_EXPECTED = ok (VNum nan) ->
  contains row COL_ACTUAL = true ->
  shortfall_block L row
  = ([st_markdown COMPARISON_HEADING], raise ValueError).
Proof.
  intros He Ha. unfold shortfall_block.
  rewrite (proj2 (contains_getitem row COL_EXPECTED)) by eauto.
  rewrite Ha. cbn [andb]. rewrite bind_emit, He, bind_lift_ok.
  reflexivity.
Qed.

Lemma comparison_message_shown (diff : float) (n : Z) :
  int_of_float diff = ok n ->
  comparison_message diff
  = ([match classify diff with
      | ACTUAL_EXCEEDS_EXPECTED =>
          st_error ("⚠️ 실제 부족액이 예상보다 " ++ format_comma n ++ " 원 더 큼")%string
      | ACTUAL_BELOW_EXPECTED =>
          st_success
            ("✅ 실제 부족액이 예상보다 " ++ format_comma (Z.abs n) ++ " 원 적음")%string
      | EQUAL => st_info "📊 실제와 예상 부족액이 동일합니다."
      end], ok tt).
Proof.
  intros Hn. unfold comparison_message.
  destruct (classify diff); try rewrite Hn, bind_lift_ok; reflexivity.
Qed.

(** [int] stops the block at the first amount that is no number
    proper. *)
Lemma comparison_stops (row : Series) (expected actual : float) :
  getitem row COL_EXPECTED = ok (VNum expected) ->
  getitem row COL_ACTUAL = ok (VNum actual) ->
  (finite expected = false ->
   shortfall_block L row
   = ([st_markdown COMPARISON_HEADING],
      raise (if (expected =? expected)%float
             then OverflowError else ValueError)))
  /\ (forall ne, int_of_float expected = ok ne -> finite actual = false ->
      shortfall_block L row
      = ([ st_markdown COMPARISON_HEADING;
           st_metric "예상 부족액" (format_comma ne ++ " 원")%string ],
         raise (if (actual =? actual)%float
                then OverflowError else ValueError))).
Proof.
  intros He Ha. unfold shortfall_block.
  rewrite (proj2 (contains_getitem row COL_EXPECTED)) by eauto.
  rewrite (proj2 (contains_getitem row COL_ACTUAL)) by eauto.
  cbn [andb]. rewrite bind_emit, He, bind_lift_ok. cbn [Py.int].
  split.
  - intros Hf. rewrite (FloatFacts.int_of_non_finite expected Hf).
    reflexivity.
  - intros ne Hne Hf. rewrite Hne, bind_lift_ok.
    rewrite bind_emit, Ha, bind_lift_ok. cbn [Py.int].
    rewrite (FloatFacts.int_of_non_finite actual Hf). reflexivity.
Qed.

(** C7, as the code has it.  The comparison block is entered exactly
    when the row has both shortfall entries.  When one is absent the
    block shows nothing and raises nothing, no amount is put in its
    place, and the details go on with the blocks after it.  When both
    are there and are numbers proper the comparison runs: the block
    shows its heading and the two amounts, their fractions dropped, and
    goes on to the message of the comparison, one of three by the sign
    of the actual less the expected shortfall, and to the projection.
    An entry that is there but is no number proper, the missing value
    or an infinity, does not skip the block: [int] raises on it, before
    anything is compared, and the script ends there. *)
Theorem comparison_iff_both_present (row : Series) :
  (contains row COL_EXPECTED && contains row COL_ACTUAL = true <->
   In (st_markdown COMPARISON_HEADING) (shown (shortfall_block L row))) /\
  (contains row COL_EXPECTED && contains row COL_ACTUAL = false ->
   shortfall_block L row = ret tt /\
   forall raw_df,
     details L row raw_df
     = (header_block L row ;; explanation_block L row ;;
        trend_block row raw_df)) /\
  (forall expected actual,
     getitem row COL_EXPECTED = ok (VNum expected) ->
     getitem row COL_ACTUAL = ok (VNum actual) ->
     (finite expected = true -> finite actual = true ->
      exists ne na,
        int_of_float expected = ok ne /\ int_of_float actual = ok na
        /\ shortfall_block L row
           = (st_markdown COMPARISON_HEADING
                :: st_metric "예상 부족액" (format_comma ne ++ " 원")%string
                :: st_metric "실제 부족액" (format_comma na ++ " 원")%string
                :: shown (comparison_message (fst (compare expected actual)) ;;
                          projection_block L row),
              outcome (comparison_message (fst (compare expected actual)) ;;
                       projection_block L row))
        /\ forall nd,
             int_of_float (actual - expected) = ok nd ->
             comparison_message (fst (compare expected actual))
             = ([match snd (compare expected actual) with
                 | ACTUAL_EXCEEDS_EXPECTED =>
                     st_error ("⚠️ 실제 부족액이 예상보다 "
                               ++ format_comma nd ++ " 원 더 큼")%string
                 | ACTUAL_BELOW_EXPECTED =>
                     st_success ("✅ 실제 부족액이 예상보다 "
                                 ++ format_comma (Z.abs nd) ++ " 원 적음")%string
                 | EQUAL => st_info "📊 실제와 예상 부족액이 동일합니다."
                 end], ok tt))
     /\ (finite expected = false ->
         shortfall_block L row
         = ([st_markdown COMPARISON_HEADING],
            raise (if (expected =? expected)%float
                   then OverflowError else ValueError)))
     /\ (finite expected = true -> finite actual = false ->
         exists ne,
           int_of_float expected = ok ne
           /\ shortfall_block L row
              = ([ st_markdown COMPARISON_HEADING;
                   st_metric "예상 부족액" (format_comma ne ++ " 원")%string ],
                 raise (if (actual =? actual)%float
                        then OverflowError else ValueError)))).
Proof.
  split; [|split].
  - unfold shortfall_block.
    destruct (contains row COL_EXPECTED && contains row COL_ACTUAL).
    + split; [intros _|reflexivity].
      match goal with
      | |- In _ (shown (bind (emit ?w) ?k)) =>
          rewrite (bind_ok (emit w) k tt eq_refl)
      end.
      now left.
    + split; [discriminate|]. intros [].
  - unfold details, shortfall_block. intros ->.
    split; [reflexivity|]. intros raw_df.
    destruct (header_block L row) as [w [e|[]]]; [reflexivity|].
    cbn [bind]. now rewrite bind_ret_l.
  - intros expected actual He Ha.
    destruct (comparison_stops row expected actual He Ha) as [Se Sa].
    split; [|split].
    + intros Fe Fa.
      destruct (proj1 (FloatFacts.int_of_float_finite expected) Fe)
        as [ne Hne].
      destruct (proj1 (FloatFacts.int_of_float_finite actual) Fa)
        as [na Hna].
      exists ne, na. split; [exact Hne|]. split; [exact Hna|]. split.
      * exact (comparison_runs row expected actual ne na He Ha Hne Hna).
      * intros nd Hnd. cbn [compare fst snd].
        exact (comparison_message_shown _ nd Hnd).
    + exact Se.
    + intros Fe Fa.
      destruct (proj1 (FloatFacts.int_of_float_finite expected) Fe)
        as [ne Hne].
      exists ne. split; [exact Hne|]. exact (Sa ne Hne Fa).
Qed.

(** *** The row needs its registration number *)

Lemma getitem_absent (row : Series) (key : string) :
  contains row key = false -> getitem row key = raise (KeyError key).
Proof.
  induction row as [|[k v] row IH]; cbn [contains getitem];
    [reflexivity|].
  destruct (String.eqb k key); [discriminate|exact IH].
Qed.

(** Line 78 reads the registration number before anything else of the
    details: a row without that entry ends there with a [KeyError], and
    the lookup by name of line 167 is never reached from the script. *)
Lemma details_without_regno (row : Series) (raw_df : list RawRow) :
  contains row COL_REGNO = false ->
  details L row raw_df = ([st_markdown "---"], raise (KeyError COL_NAME))
  \/ details L row raw_df = ([st_markdown "---"], raise (KeyError COL_REGNO)).
Proof.
  intros H. apply getitem_absent in H.
  unfold details, header_block. rewrite H.
  destruct (getitem row COL_NAME) as [e|name] eqn:Hn.
  - left.
    destruct (contains row COL_NAME) eqn:Hc.
    + apply contains_getitem in Hc. destruct Hc as [c Hc].
      rewrite Hn in Hc. discriminate Hc.
    + apply getitem_absent in Hc. rewrite Hn in Hc. injection Hc as ->.
      reflexivity.
  - right. reflexivity.
Qed.

End Gates.

Lemma projection_only_when_positive_witness :
  In (st_markdown PROJECTION_HEADING)
     (shown (details SimpleLib.lib (Sample.judged Sample.alpha) Sample.raw_df))
  /\ exists total,
       getitem (Sample.judged Sample.alpha) COL_EXPECTED = ok (VNum total)
       /\ (0 <? total)%float = true /\ (total <=? 0)%float = false.
Proof.
  assert (H : In (st_markdown PROJECTION_HEADING)
                 (shown (details SimpleLib.lib (Sample.judged Sample.alpha)
                           Sample.raw_df))).
  { cbv. repeat (first [left; reflexivity | right]). }
  split; [exact H|].
  exact (projection_only_when_positive SimpleLib.lib (Sample.judged Sample.alpha)
           Sample.raw_df (st_markdown PROJECTION_HEADING) H eq_refl).
Defined.

Lemma comparison_iff_both_present_witness :
  exists rest,
    shortfall_block SimpleLib.lib Sample.alpha
    = (st_markdown COMPARISON_HEADING
         :: st_metric "예상 부족액" "1,000,000 원"
         :: st_metric "실제 부족액" "1,500,000 원"
         :: st_error "⚠️ 실제 부족액이 예상보다 500,000 원 더 큼"
         :: rest,
       ok tt).
Proof.
  destruct (proj2 (proj2 (comparison_iff_both_present SimpleLib.lib
                            Sample.alpha))
              1000000%float 1500000%float eq_refl eq_refl)
    as (Hrun & _ & _).
  destruct (Hrun eq_refl eq_refl) as (ne & na & Hne & Hna & Hs & Hm).
  injection Hne as <-. injection Hna as <-.
  specialize (Hm 500000 eq_refl).
  rewrite Hs, (bind_ok _ _ tt) by (now rewrite Hm). rewrite Hm.
  eexists. reflexivity.
Defined.

(** C7 as stated fails on a row that has both entries, one of them empty
    in the file: the block is entered, nothing is compared, and [int]
    ends the script instead of the step being skipped. *)
Lemma comparison_stops_on_missing_value :
  contains (Sample.judged Sample.delta) COL_EXPECTED
  && contains (Sample.judged Sample.delta) COL_ACTUAL = true
  /\ getitem (Sample.judged Sample.delta) COL_EXPECTED = ok (VNum nan)
  /\ shortfall_block SimpleLib.lib (Sample.judged Sample.delta)
     = ([st_markdown COMPARISON_HEADING], raise ValueError)
  /\ details SimpleLib.lib (Sample.judged Sample.delta) Sample.raw_df
     = ([ st_markdown "---";
          st_subheader "🏢 Delta (101-81-00004)";
          st_metric "리스크 확률" "75%";
          st_metric "정상 확률" "25%";
          st_markdown "**최종 판정:**";
          st_error "🚨 리스크 (70%↑)";
          st_markdown COMPARISON_HEADING ],
        raise ValueError).
Proof. repeat split; reflexivity. Qed.

(** ** The details are those of the first row *)

Module ListFacts.

Lemma rfilter_ok {A : Type} (f : A -> res bool) (l l' : list A) :
  rfilter f l = ok l' -> l' = filter (fun x => holds (f x)) l.
Proof.
  revert l'. induction l as [|a l IH]; intros l' H; cbn [rfilter] in H.
  - now injection H as <-.
  - destruct (f a) as [e|b] eqn:Fa; cbn [rbind] in H; [discriminate H|].
    destruct (rfilter f l) as [e|rest]; cbn [rbind] in H; [discriminate H|].
    injection H as <-. cbn [filter]. rewrite Fa. rewrite (IH rest eq_refl).
    now destruct b.
Qed.

Lemma rmap_ok {A B : Type} (f : A -> res B) (l : list A) (l' : list B) :
  rmap f l = ok l' -> Forall2 (fun a b => f a = ok b) l l'.
Proof.
  revert l'. induction l as [|a l IH]; intros l' H; cbn [rmap] in H.
  - injection H as <-. constructor.
  - destruct (f a) as [e|b] eqn:Fa; cbn [rbind] in H; [discriminate H|].
    destruct (rmap f l) as [e|bs]; cbn [rbind] in H; [discriminate H|].
    injection H as <-. constructor; [exact Fa|]. now apply IH.
Qed.

Lemma rmap_total {A B : Type} (f : A -> res B) (l : list A) :
  (forall a, In a l -> exists b, f a = ok b) ->
  exists l', rmap f l = ok l'.
Proof.
  induction l as [|a l IH]; intros H; cbn [rmap].
  - now exists [].
  - destruct (H a (or_introl eq_refl)) as [b Hb].
    destruct IH as [bs Hbs]; [intros x Hx; apply H; now right|].
    rewrite Hb, Hbs. cbn [rbind]. now exists (b :: bs).
Qed.

Lemma filter_all {A : Type} (l : list A) : filter (fun _ => true) l = l.
Proof. induction l as [|a l IH]; cbn [filter]; congruence. Qed.

(** The first row a filter keeps, and the rows it passed over. *)
Lemma filter_first {A : Type} (p : A -> bool) (l : list A) (a : A)
    (pre rest : list A) :
  filter p l = pre ++ a :: rest ->
  exists before after,
    l = before ++ a :: after /\ filter p before = pre /\ p a = true.
Proof.
  revert pre. induction l as [|x l IH]; intros pre H; cbn [filter] in H.
  - now destruct pre.
  - destruct (p x) eqn:Px.
    + destruct pre as [|y pre]; cbn [app] in H; injection H as <- H.
      * exists [], l. cbn [filter app]. auto.
      * destruct (IH pre H) as (before & after & -> & Hb & Ha).
        exists (x :: before), after. cbn [filter app]. rewrite Px, Hb. auto.
    + destruct (IH pre H) as (before & after & -> & Hb & Ha).
      exists (x :: before), after. cbn [filter app]. rewrite Px. auto.
Qed.

Lemma Forall2_filter_first {A B : Type} (R : A -> B -> Prop)
    (p : B -> bool) (l : list A) (l' : list B) (b : B) (rest : list B) :
  Forall2 R l l' -> filter p l' = b :: rest ->
  exists pre a post,
    l = pre ++ a :: post /\ R a b /\ p b = true
    /\ Forall (fun x => exists y, R x y /\ p y = false) pre.
Proof.
  induction 1 as [|x y l l' Rxy _ IH]; cbn [filter]; intros H.
  - discriminate H.
  - destruct (p y) eqn:Py.
    + injection H as <- _. exists [], x, l. cbn [app]. auto.
    + destruct (IH H) as (pre & a & post & -> & Ra & Pb & Hpre).
      exists (x :: pre), a, post. cbn [app]. repeat split; try assumption.
      constructor; [eauto|assumption].
Qed.

Lemma outcome_bind {A B : Type} (c : ui A) (k : A -> ui B) (b : B) :
  outcome (bind c k) = ok b ->
  exists a, outcome c = ok a /\ outcome (k a) = ok b.
Proof.
  destruct c as [w [e|a]]; cbn [bind outcome snd].
  - discriminate.
  - intros H. exists a. split; [reflexivity|].
    destruct (k a) as [w' r]. exact H.
Qed.

End ListFacts.

Section FirstRow.

Variable L : Lib.

(** *** The mask, row by row *)

Lemma search_mask_row (company : string) (r : Series) (regno name : cell)
    (found_in : string -> bool) :
  getitem r COL_REGNO = ok regno -> getitem r COL_NAME = ok name ->
  str_contains L company = Some found_in ->
  search_mask L company r
  = ok (found_in (str L regno) || found_in (str L name)).
Proof.
  intros Hr Hn Hc. unfold search_mask, mask, column, contains_column.
  cbn [rmap]. rewrite Hr. cbn [rbind]. rewrite Hc, Hn. reflexivity.
Qed.

Lemma mask_rows (company : string) (found_in : string -> bool)
    (df : list Series) (regnos names : list cell) :
  str_contains L company = Some found_in ->
  Forall2 (fun r c => getitem r COL_REGNO = ok c) df regnos ->
  Forall2 (fun r c => getitem r COL_NAME = ok c) df names ->
  Forall2 (fun r b => search_mask L company r = ok b) df
    (map (fun ab => fst ab || snd ab)
       (combine (map (fun c => found_in (str L c)) regnos)
                (map (fun c => found_in (str L c)) names))).
Proof.
  intros Hc F1. revert names.
  induction F1 as [|r c df regnos Hr _ IH]; intros names F2;
    inversion F2 as [|r' d df' names' Hn F2']; subst;
    cbn [map combine]; constructor.
  - cbn [fst snd]. now apply (search_mask_row company r c d).
  - now apply IH.
Qed.

(** A mask that is returned is, row by row, the mask of the row. *)
Lemma mask_inv (df : list Series) (company : string) (keep : list bool) :
  mask L df company = ok keep ->
  (exists found_in, str_contains L company = Some found_in)
  /\ Forall2 (fun r b => search_mask L company r = ok b) df keep.
Proof.
  unfold mask, contains_column.
  destruct (column df COL_REGNO) as [e|regnos] eqn:Hr; cbn [rbind];
    [discriminate|].
  destruct (str_contains L company) as [found_in|] eqn:Hc; cbn [rbind];
    [|discriminate].
  destruct (column df COL_NAME) as [e|names] eqn:Hn; cbn [rbind];
    [discriminate|].
  intros H. injection H as <-. split; [now exists found_in|].
  apply mask_rows; [exact Hc| |]; now apply ListFacts.rmap_ok.
Qed.

Lemma rows_where_filter (f : Series -> res bool) (df : list Series)
    (keep : list bool) :
  Forall2 (fun r b => f r = ok b) df keep ->
  rows_where df keep = filter (fun r => holds (f r)) df.
Proof.
  unfold rows_where.
  induction 1 as [|r b df keep Hr _ IH]; cbn [combine filter map];
    [reflexivity|].
  rewrite Hr. cbn [snd holds]. destruct b; cbn [map fst]; now rewrite IH.
Qed.

Lemma search_found (df found : list Series) (company : string) :
  outcome (search L df company) = ok found ->
  found = filter (fun r => String.eqb company ""
                           || holds (search_mask L company r)) df.
Proof.
  unfold search. destruct (String.eqb company "") eqn:E.
  - cbn. intros H. injection H as <-. symmetry. apply ListFacts.filter_all.
  - cbn [orb]. intros H.
    apply ListFacts.outcome_bind in H. destruct H as (keep & Hk & H).
    cbn [outcome lift snd] in Hk. apply mask_inv in Hk.
    rewrite (rows_where_filter _ _ _ (proj2 Hk)) in H.
    destruct (filter _ df); cbn in H; injection H as <-; reflexivity.
Qed.

Lemma overview_result (df result : list Series) (company : string)
    (show_risk_only : bool) :
  outcome (overview L df company show_risk_only) = ok result ->
  exists found judged,
    found = filter (fun r => String.eqb company ""
                             || holds (search_mask L company r)) df
    /\ Forall2 (fun a b => judge_row a = ok b) found judged
    /\ result = filter (fun j => negb show_risk_only
                                 || holds (judgement_is 0 j)) judged.
Proof.
  unfold overview. intros H.
  apply ListFacts.outcome_bind in H. destruct H as (found & Hf & H).
  apply ListFacts.outcome_bind in H. destruct H as (judged & Hj & H).
  apply ListFacts.outcome_bind in H. destruct H as (_ & _ & H).
  apply ListFacts.outcome_bind in H. destruct H as (result' & Hr & H).
  apply ListFacts.outcome_bind in H. destruct H as (_ & _ & H).
  cbn in H. injection H as ->.
  exists found, judged. split; [now apply search_found|].
  split; [now apply ListFacts.rmap_ok|].
  destruct show_risk_only; cbn [negb orb].
  - cbn [outcome lift snd] in Hr. now apply ListFacts.rfilter_ok in Hr.
  - cbn in Hr. injection Hr as <-. symmetry. apply ListFacts.filter_all.
Qed.

(** C10.  When the table left by the search, the judgement and the
    checkbox is not empty, the run shows the overview and then the
    details of the first row of that table and of no other: the rest of
    the table does not enter the details, and the row is the judged form
    of the first row of the prediction table that the search keeps and,
    with the checkbox set, that is judged at risk. *)
Theorem details_of_first_row (df : list Series) (raw_df : list RawRow)
    (company : string) (show_risk_only : bool)
    (row : Series) (rest : list Series) :
  outcome (overview L df company show_risk_only) = ok (row :: rest) ->
  main L df raw_df company show_risk_only
  = (shown (overview L df company show_risk_only)
       ++ shown (details L row raw_df),
     outcome (details L row raw_df))
  /\ (forall others,
        detail_section L (row :: others) raw_df = details L row raw_df)
  /\ exists before r after,
       df = before ++ r :: after
       /\ Forall (fun x => selected L company show_risk_only x = false) before
       /\ selected L company show_risk_only r = true
       /\ judge_row r = ok row.
Proof.
  intros H. split; [|split].
  - unfold main. now rewrite (bind_ok _ _ _ H).
  - reflexivity.
  - apply overview_result in H.
    destruct H as (found & judged & Hf & Hj & Hr).
    symmetry in Hr.
    destruct (ListFacts.Forall2_filter_first _ _ _ _ _ _ Hj Hr)
      as (pre & r & post & Hfound & Rr & Pr & Hpre).
    rewrite Hfound in Hf. symmetry in Hf.
    destruct (ListFacts.filter_first _ _ _ _ _ Hf)
      as (before & after & Hdf & Hb & Sr).
    exists before, r, after. repeat split; try assumption.
    + apply Forall_forall. intros x Hx. unfold selected.
      destruct (String.eqb company "" || holds (search_mask L company x))
        eqn:Sx; [|reflexivity].
      cbn [andb].
      assert (Hin : In x pre).
      { rewrite <- Hb. apply filter_In. split; assumption. }
      rewrite Forall_forall in Hpre.
      destruct (Hpre x Hin) as (y & Hy & Py).
      rewrite Hy. cbn [rbind]. exact Py.
    + unfold selected. rewrite Sr, Rr. cbn [andb rbind]. exact Pr.
Qed.

End FirstRow.

Lemma details_of_first_row_witness :
  outcome (overview SimpleLib.lib Sample.df "Alpha" false)
  = ok [Sample.judged Sample.alpha; Sample.judged Sample.gamma]
  /\ exists before r after,
       Sample.df = before ++ r :: after
       /\ Forall (fun x => selected SimpleLib.lib "Alpha" false x = false) before
       /\ selected SimpleLib.lib "Alpha" false r = true
       /\ judge_row r = ok (Sample.judged Sample.alpha).
Proof.
  assert (H : outcome (overview SimpleLib.lib Sample.df "Alpha" false)
              = ok [Sample.judged Sample.alpha; Sample.judged Sample.gamma])
    by (vm_compute; reflexivity).
  split; [exact H|].
  exact (proj2 (proj2 (details_of_first_row SimpleLib.lib Sample.df
                         Sample.raw_df "Alpha" false _ _ H))).
Defined.

(** ** The yearly indicators *)

Section Trend.

(** Whichever key the lookup takes, it keeps rows of the table in the
    order of the table. *)
Lemma firm_data_filter (row : Series) (raw_df firm : list RawRow) :
  firm_data row raw_df = ok firm ->
  exists keep, firm = filter keep raw_df.
Proof.
  unfold firm_data.
  destruct (contains row COL_REGNO);
    [destruct (getitem row COL_REGNO) as [e|key]
    |destruct (getitem row COL_NAME) as [e|key]];
    cbn [rbind]; intros H; try discriminate H; injection H as <-; eauto.
Qed.

Lemma chart_years (firm : list RawRow) :
  map chart_year (chart_df firm) = map raw_year firm.
Proof.
  unfold chart_df. rewrite map_map. reflexivity.
Qed.

Lemma map_filter_sorted {A : Type} (f : A -> Z) (keep : A -> bool)
    (l : list A) :
  Sorted.Sorted Z.le (map f l) -> Sorted.Sorted Z.le (map f (filter keep l)).
Proof.
  intros H. apply Sorted.Sorted_StronglySorted in H;
    [|intros x y z; apply Z.le_trans].
  apply Sorted.StronglySorted_Sorted.
  induction l as [|a l IH]; cbn [map filter] in *; [constructor|].
  apply Sorted.StronglySorted_inv in H. destruct H as [Hl Ha].
  destruct (keep a); [|now apply IH].
  cbn [map]. constructor; [now apply IH|].
  rewrite Forall_forall in *. intros y Hy. apply Ha.
  apply in_map_iff in Hy. destruct Hy as (x & <- & Hx).
  apply in_map. apply filter_In in Hx. tauto.
Qed.

(** C4, as the code has it.  The chart's table lists the rows of the
    company in the order the indicator table has them: nothing sorts
    them, and they are in ascending order of year when the indicator
    table is. *)
Theorem chart_keeps_source_order (row : Series) (raw_df firm : list RawRow) :
  firm_data row raw_df = ok firm ->
  (exists keep, firm = filter keep raw_df)
  /\ map chart_year (chart_df firm) = map raw_year firm
  /\ (Sorted.Sorted Z.le (map raw_year raw_df) ->
      Sorted.Sorted Z.le (map chart_year (chart_df firm))).
Proof.
  intros H. pose proof (firm_data_filter _ _ _ H) as [keep Hk].
  split; [eauto|]. split; [apply chart_years|].
  rewrite chart_years, Hk. apply map_filter_sorted.
Qed.

(** C5.  Each row of the company gives one row of the chart's table,
    under the same year, with three ratios: the reserve over the minimum
    reserve, the evaluated reserve over the continuing-basis liability
    reserve, and the contributions paid over the contributions
    assessed. *)
Theorem chart_ratios (firm : list RawRow) :
  Forall2
    (fun r c =>
       chart_year c = raw_year r
       /\ reserve_ratio c
          = (reserve_amount r / minimum_required_reserve r)%float
       /\ compliance_ratio c
          = (total_evaluated_reserve r
             / continuing_basis_liability_reserve r)%float
       /\ payment_fulfillment_ratio c
          = (contribution_paid_amount r
             / contribution_assessed_amount r)%float)
    firm (chart_df firm)
  /\ forall (row : Series) (raw_df : list RawRow),
      firm_data row raw_df = ok firm -> firm <> [] ->
      trend_block row raw_df
      = ([st_markdown "---"; st_markdown "### 📈 연도별 지표 트렌드";
          st_line_chart (chart_df firm)], ok tt).
Proof.
  split.
  - induction firm as [|r firm IH]; constructor; [|exact IH].
    repeat split.
  - intros row raw_df H Hne. unfold trend_block.
    rewrite !bind_emit, H, bind_lift_ok.
    destruct firm; [now elim Hne|reflexivity].
Qed.

(** A zero denominator raises nothing: the ratio is an infinity, or
    [NaN] for 0/0. *)
Example ratios_of_zero_denominators :
  (3 / 0 = infinity)%float /\ (0 / 0 =? 0 / 0)%float = false.
Proof. split; reflexivity. Qed.

(** C8, as the code has it.  The lookup is by registration number
    whenever the row has that entry, blank or not, and by name only when
    the row has no such entry. *)
Theorem firm_data_key (row : Series) (raw_df : list RawRow) :
  (forall key, getitem row COL_REGNO = ok key ->
     firm_data row raw_df
     = ok (filter (fun r => cell_eqb (raw_regno r) key) raw_df))
  /\ (contains row COL_REGNO = false ->
      firm_data row raw_df
      = (let? name := getitem row COL_NAME in
         ok (filter (fun r => cell_eqb (raw_name r) name) raw_df))).
Proof.
  unfold firm_data. split.
  - intros key H.
    rewrite (proj2 (contains_getitem row COL_REGNO)) by eauto.
    now rewrite H.
  - now intros ->.
Qed.

End Trend.

Lemma chart_keeps_source_order_witness :
  firm_data (Sample.judged Sample.alpha) Sample.raw_df
  = ok (filter (fun r => cell_eqb (raw_regno r) (VStr "101-81-00001"))
          Sample.raw_df)
  /\ map chart_year
       (chart_df (filter (fun r => cell_eqb (raw_regno r) (VStr "101-81-00001"))
                    Sample.raw_df))
     = [2016; 2014; 2015].
Proof.
  assert (H : firm_data (Sample.judged Sample.alpha) Sample.raw_df
              = ok (filter (fun r => cell_eqb (raw_regno r) (VStr "101-81-00001"))
                      Sample.raw_df)) by reflexivity.
  split; [exact H|].
  rewrite (proj1 (proj2 (chart_keeps_source_order _ _ _ H))).
  reflexivity.
Defined.

(** C4 as stated fails: the rows of a company listed under the years
    2016, 2014, 2015 come out in that order, not as 2014, 2015, 2016. *)
Lemma chart_not_sorted :
  rbind (firm_data (Sample.judged Sample.alpha) Sample.raw_df)
        (fun firm => ok (map chart_year (chart_df firm)))
  = ok [2016; 2014; 2015]
  /\ shown (trend_block (Sample.judged Sample.alpha) Sample.raw_df)
     = [ st_markdown "---"; st_markdown "### 📈 연도별 지표 트렌드";
         st_line_chart
           [ {| chart_year := 2016; reserve_ratio := (90 / 100)%float;
                compliance_ratio := (80 / 100)%float;
                payment_fulfillment_ratio := (70 / 100)%float |};
             {| chart_year := 2014; reserve_ratio := (50 / 100)%float;
                compliance_ratio := (60 / 100)%float;
                payment_fulfillment_ratio := (0 / 0)%float |};
             {| chart_year := 2015; reserve_ratio := (75 / 100)%float;
                compliance_ratio := (3 / 0)%float;
                payment_fulfillment_ratio := (50 / 100)%float |} ] ].
Proof. split; reflexivity. Qed.

(** C8 as stated fails: a row whose registration number is blank (the
    missing value of an empty CSV field) is still looked up by that
    number, which no row equals, and not by its name. *)
Lemma blank_regno_is_still_the_key :
  is_blank (VNum nan) = true
  /\ firm_data [(COL_REGNO, VNum nan); (COL_NAME, VStr "Alpha")]
       [Sample.yearly (VNum nan) (VStr "Alpha") 2014 50 100 60 100 40 80]
     = ok []
  /\ firm_data_as_specified [(COL_REGNO, VNum nan); (COL_NAME, VStr "Alpha")]
       [Sample.yearly (VNum nan) (VStr "Alpha") 2014 50 100 60 100 40 80]
     = ok [Sample.yearly (VNum nan) (VStr "Alpha") 2014 50 100 60 100 40 80].
Proof. repeat split; reflexivity. Qed.

(** ** The rebalancing projection *)

Section Projection.

Variable L : Lib.

Lemma scenarios_allocation (total : float) :
  scenarios total
  = map (fun s => (fst s, (total * fst (snd s), total * snd (snd s))%float))
      allocation.
Proof. reflexivity. Qed.

Lemma month_index (m : Z) :
  1 <= m <= 12 -> nth_error months (Z.to_nat (m - 1)) = Some m.
Proof.
  intros H.
  assert (C : m = 1 \/ m = 2 \/ m = 3 \/ m = 4 \/ m = 5 \/ m = 6 \/ m = 7
              \/ m = 8 \/ m = 9 \/ m = 10 \/ m = 11 \/ m = 12) by lia.
  repeat (destruct C as [->|C]; [reflexivity|]). now subst m.
Qed.

Lemma months_range (m : Z) : In m months <-> 1 <= m <= 12.
Proof.
  unfold months. cbn [In]. lia.
Qed.

Lemma Forall2_nth_error {A B : Type} (R : A -> B -> Prop)
    (l : list A) (l' : list B) (i : nat) (a : A) :
  Forall2 R l l' -> nth_error l i = Some a ->
  exists b, nth_error l' i = Some b /\ R a b.
Proof.
  intros H. revert i. induction H as [|x y l l' Rxy _ IH]; intros i Hi.
  - now destruct i.
  - destruct i as [|i]; cbn [nth_error] in *.
    + injection Hi as <-. eauto.
    + now apply IH.
Qed.

(** A cell is the balance of its month with the fraction dropped. *)
Definition cell_of (principal_amt non_principal_amt : float) (m : Z)
    (c : string) : Prop :=
  exists n q,
    c = (format_comma n ++ " 원")%string
    /\ int_of_float (bal L principal_amt non_principal_amt m) = ok n
    /\ value (bal L principal_amt non_principal_amt m) = Some q
    /\ truncation q n.

Lemma balance_cell_ok (pa npa : float) (m : Z) (c : string) :
  balance_cell L pa npa m = ok c -> cell_of pa npa m c.
Proof.
  unfold balance_cell.
  destruct (int_of_float (bal L pa npa m)) as [e|n] eqn:Hn;
    cbn [rbind]; intros H; [discriminate H|]. injection H as <-.
  destruct (FloatFacts.int_of_float_truncation _ _ Hn) as (q & Hq & Ht).
  exists n, q. auto.
Qed.

Lemma balance_column_ok (name : string) (pa npa : float) :
  (forall m, In m months -> finite (bal L pa npa m) = true) ->
  exists col,
    balance_column L (name, (pa, npa)) = ok (name, col)
    /\ List.length col = 12%nat
    /\ forall m, 1 <= m <= 12 ->
         exists c, nth_error col (Z.to_nat (m - 1)) = Some c
                   /\ cell_of pa npa m c.
Proof.
  intros Hfin.
  destruct (ListFacts.rmap_total (balance_cell L pa npa) months) as [col Hcol].
  { intros m Hm. unfold balance_cell.
    destruct (proj1 (FloatFacts.int_of_float_finite _) (Hfin m Hm)) as [n Hn].
    rewrite Hn. cbn [rbind]. eexists; reflexivity. }
  exists col. cbn [balance_column]. rewrite Hcol. cbn [rbind].
  pose proof (ListFacts.rmap_ok _ _ _ Hcol) as F.
  split; [reflexivity|]. split.
  - now rewrite <- (Forall2_length F).
  - intros m Hm.
    destruct (Forall2_nth_error _ _ _ _ _ F (month_index m Hm)) as (c & Hc & Hb).
    exists c. split; [exact Hc|]. now apply balance_cell_ok.
Qed.

(** *** What stops the projection *)

Lemma rmap_raises {A B : Type} (f : A -> res B) (l : list A) (e : exn) :
  rmap f l = raise e -> exists a, In a l /\ f a = raise e.
Proof.
  induction l as [|a l IH]; cbn [rmap]; intros H; [discriminate H|].
  destruct (f a) as [e'|b] eqn:Fa; cbn [rbind] in H.
  - injection H as ->. exists a. split; [now left|exact Fa].
  - destruct (rmap f l) as [e'|bs]; cbn [rbind] in H; [|discriminate H].
    injection H as ->. destruct (IH eq_refl) as (x & Hx & Fx).
    exists x. split; [now right|exact Fx].
Qed.

(** The projection raises what [int] raises on one of its balances. *)
Lemma df_bal_raises (total : float) (e : exn) :
  df_bal L total = raise e ->
  exists name fp fn m,
    In (name, (fp, fn)) allocation /\ In m months
    /\ int_of_float (bal L (total * fp) (total * fn) m) = raise e.
Proof.
  intros H. unfold df_bal in H.
  destruct (rmap (balance_column L) (scenarios total)) as [e'|cols] eqn:Hc;
    cbn [rbind] in H; [|discriminate H].
  injection H as ->.
  destruct (rmap_raises _ _ _ Hc) as ([name [pa npa]] & Hin & Hcol).
  rewrite scenarios_allocation in Hin. apply in_map_iff in Hin.
  destruct Hin as ([name' [fp fn]] & E & Ha). cbn [fst snd] in E.
  injection E as -> <- <-.
  cbn [balance_column] in Hcol.
  destruct (rmap (balance_cell L (total * fp) (total * fn)) months)
    as [e'|cells] eqn:Hcells; cbn [rbind] in Hcol; [|discriminate Hcol].
  injection Hcol as ->.
  destruct (rmap_raises _ _ _ Hcells) as (m & Hm & Hcell).
  unfold balance_cell in Hcell.
  destruct (int_of_float (bal L (total * fp) (total * fn) m)) as [e'|n] eqn:Hn;
    cbn [rbind] in Hcell; [|discriminate Hcell].
  injection Hcell as ->. now exists name, fp, fn, m.
Qed.

Lemma df_bal_returns (total : float) :
  (forall name fp fn m,
      In (name, (fp, fn)) allocation -> In m months ->
      finite (bal L (total * fp) (total * fn) m) = true) ->
  exists t, df_bal L total = ok t.
Proof.
  intros Hfin. destruct (df_bal L total) as [e|t] eqn:H; [|now exists t].
  destruct (df_bal_raises total e H) as (name & fp & fn & m & Ha & Hm & Hn).
  destruct (proj1 (FloatFacts.int_of_float_finite _) (Hfin name fp fn m Ha Hm))
    as [n Hn'].
  rewrite Hn in Hn'. discriminate Hn'.
Qed.

Lemma balance_column_finite (name : string) (pa npa : float)
    (col : string * list string) (m : Z) :
  balance_column L (name, (pa, npa)) = ok col -> In m months ->
  finite (bal L pa npa m) = true.
Proof.
  cbn [balance_column]. intros H Hm.
  destruct (rmap (balance_cell L pa npa) months) as [e|cells] eqn:Hc;
    cbn [rbind] in H; [discriminate H|].
  apply ListFacts.rmap_ok in Hc.
  apply months_range in Hm.
  destruct (Forall2_nth_error _ _ _ _ _ Hc (month_index m Hm)) as (c & _ & Hcell).
  apply FloatFacts.int_of_float_finite. unfold balance_cell in Hcell.
  destruct (int_of_float (bal L pa npa m)) as [e|n]; [discriminate Hcell|].
  now exists n.
Qed.

Lemma df_bal_finite (total : float) (t : BalanceTable) :
  df_bal L total = ok t ->
  forall name fp fn m,
    In (name, (fp, fn)) allocation -> In m months ->
    finite (bal L (total * fp) (total * fn) m) = true.
Proof.
  intros H name fp fn m Ha Hm. unfold df_bal in H.
  destruct (rmap (balance_column L) (scenarios total)) as [e|cols] eqn:Hc;
    cbn [rbind] in H; [discriminate H|].
  clear H. unfold scenarios in Hc. cbn [rmap] in Hc.
  destruct (balance_column L (CONSERVATIVE, (total * 0.7, total * 0.3)%float))
    as [e1|c1] eqn:H1; cbn [rbind] in Hc; [discriminate Hc|].
  destruct (balance_column L (BALANCED, (total * 0.5, total * 0.5)%float))
    as [e2|c2] eqn:H2; cbn [rbind] in Hc; [discriminate Hc|].
  destruct (balance_column L (AGGRESSIVE, (total * 0.3, total * 0.7)%float))
    as [e3|c3] eqn:H3; cbn [rbind] in Hc; [discriminate Hc|].
  cbn [allocation In] in Ha.
  destruct Ha as [E|[E|[E|[]]]]; injection E as <- <- <-.
  - exact (balance_column_finite _ _ _ _ m H1 Hm).
  - exact (balance_column_finite _ _ _ _ m H2 Hm).
  - exact (balance_column_finite _ _ _ _ m H3 Hm).
Qed.

(** *** The powers of the two monthly rates *)

(** [**] on the two rates and the twelve months returns the binary64
    nearest to the exact power. *)
Definition nearest_powers : Prop :=
  forall m, In m months ->
    pow L (1 + 0.05 / 12) m = power (1 + 0.05 / 12) (Z.to_pos m)
    /\ pow L (1 + 0.10 / 12) m = power (1 + 0.10 / 12) (Z.to_pos m).

Lemma share_positive (name : string) (fp fn : float) :
  In (name, (fp, fn)) allocation ->
  (exists m e, Prim2SF fp = S754_finite false m e)
  /\ (exists m e, Prim2SF fn = S754_finite false m e).
Proof.
  cbn [allocation In]. intros [H|[H|[H|[]]]]; injection H as <- <- <-;
    split; eexists; eexists; reflexivity.
Qed.

Lemma power_positive (m : Z) :
  In m months ->
  (exists mx e, Prim2SF (power (1 + 0.05 / 12) (Z.to_pos m))
                = S754_finite false mx e)
  /\ (exists mx e, Prim2SF (power (1 + 0.10 / 12) (Z.to_pos m))
                   = S754_finite false mx e).
Proof.
  cbn [months In]. intros H.
  repeat (destruct H as [<-|H];
          [split; eexists; eexists; vm_compute; reflexivity|]).
  destruct H.
Qed.

(** The twenty-four growth factors are the powers of the monthly
    rates. *)
Lemma power_compounds (m : Z) :
  In m months ->
  nearest_to_power (power (1 + 0.05 / 12) (Z.to_pos m)) (1 + 0.05 / 12) m
  /\ nearest_to_power (power (1 + 0.10 / 12) (Z.to_pos m)) (1 + 0.10 / 12) m.
Proof.
  cbn [months In]. intros H.
  repeat (destruct H as [<-|H];
          [split; eexists; eexists;
           (split; [vm_compute; reflexivity|]);
           (split; [vm_compute; reflexivity|]);
           vm_compute; discriminate|]).
  destruct H.
Qed.

(** With a positive total no balance is [NaN] or negative. *)
Lemma balance_nonneg (total : float) (name : string) (fp fn : float) (m : Z) :
  (0 <? total)%float = true -> nearest_powers ->
  In (name, (fp, fn)) allocation -> In m months ->
  FloatFacts.nonneg (Prim2SF (bal L (total * fp) (total * fn) m)).
Proof.
  intros Hpos Hpow Ha Hm. unfold bal.
  destruct (Hpow m Hm) as [-> ->].
  destruct (share_positive name fp fn Ha) as [Hp Hn].
  destruct (power_positive m Hm) as [H5 H10].
  pose proof (FloatFacts.positive_nonneg total Hpos) as Ht.
  apply FloatFacts.add_nonneg; apply FloatFacts.mul_nonneg;
    try assumption; now apply FloatFacts.mul_nonneg.
Qed.

(** C2, as the code has it.  Take a positive total, and [**] returning
    the binary64 nearest to the exact power.  When the thirty-six
    balances are all finite the projection is a table of the months 1
    to 12 by the three scenarios, in the fixed shares 0.70/0.30,
    0.50/0.50 and 0.30/0.70, and the cell of a scenario for month [m] is
    the binary64 value of
    [total*share_p*(1+0.05/12)**m + total*share_n*(1+0.10/12)**m],
    each product, each power and the sum rounded to the nearest
    binary64, with its fraction dropped, towards zero.  When a
    balance is not finite it is the positive infinity, [int] raises
    [OverflowError] and there is no table.  Each of the powers taken
    is the exact power of the monthly rate to within [2^-53] of it. *)
Theorem projection_table (total : float) :
  (0 <? total)%float = true ->
  (forall m, In m months ->
     pow L (1 + 0.05 / 12) m = power (1 + 0.05 / 12) (Z.to_pos m)
     /\ pow L (1 + 0.10 / 12) m = power (1 + 0.10 / 12) (Z.to_pos m)) ->
  ((forall name fp fn m,
       In (name, (fp, fn)) allocation -> In m months ->
       finite (bal L (total * fp) (total * fn) m) = true) ->
   exists t,
     df_bal L total = ok t
     /\ months_col t = [1; 2; 3; 4; 5; 6; 7; 8; 9; 10; 11; 12]
     /\ map fst (scenario_cols t) = [CONSERVATIVE; BALANCED; AGGRESSIVE]
     /\ forall name fp fn,
          In (name, (fp, fn)) allocation ->
          exists col,
            In (name, col) (scenario_cols t)
            /\ List.length col = 12%nat
            /\ forall m, 1 <= m <= 12 ->
                 exists n q,
                   nth_error col (Z.to_nat (m - 1))
                   = Some (format_comma n ++ " 원")%string
                   /\ value ((total * fp)
                               * power (1 + 0.05 / 12) (Z.to_pos m)
                             + (total * fn)
                               * power (1 + 0.10 / 12) (Z.to_pos m))%float
                      = Some q
                   /\ truncation q n)
  /\ ((exists name fp fn m,
         In (name, (fp, fn)) allocation /\ In m months
         /\ finite (bal L (total * fp) (total * fn) m) = false) ->
      df_bal L total = raise OverflowError)
  /\ (forall m, In m months ->
        nearest_to_power (pow L (1 + 0.05 / 12) m) (1 + 0.05 / 12) m
        /\ nearest_to_power (pow L (1 + 0.10 / 12) m) (1 + 0.10 / 12) m).
Proof.
  intros Hpos Hpow. split; [|split];
    [| |intros m Hm; destruct (Hpow m Hm) as [-> ->];
        exact (power_compounds m Hm)].
  - intros Hfin.
    destruct (balance_column_ok CONSERVATIVE (total * 0.7) (total * 0.3))
      as (c1 & E1 & L1 & N1);
      [intros m Hm; apply (Hfin CONSERVATIVE); [cbn; auto|exact Hm]|].
    destruct (balance_column_ok BALANCED (total * 0.5) (total * 0.5))
      as (c2 & E2 & L2 & N2);
      [intros m Hm; apply (Hfin BALANCED); [cbn; auto|exact Hm]|].
    destruct (balance_column_ok AGGRESSIVE (total * 0.3) (total * 0.7))
      as (c3 & E3 & L3 & N3);
      [intros m Hm; apply (Hfin AGGRESSIVE); [cbn; auto|exact Hm]|].
    exists {| months_col := months;
              scenario_cols := [(CONSERVATIVE, c1); (BALANCED, c2);
                                (AGGRESSIVE, c3)] |}.
    split.
    { unfold df_bal, scenarios. cbn [rmap]. rewrite E1, E2, E3. reflexivity. }
    split; [reflexivity|]. split; [reflexivity|].
    intros name fp fn Hin.
    assert (cells : forall col pa npa,
               (forall m, 1 <= m <= 12 ->
                  exists c, nth_error col (Z.to_nat (m - 1)) = Some c
                            /\ cell_of pa npa m c) ->
               forall m, 1 <= m <= 12 ->
                 exists n q,
                   nth_error col (Z.to_nat (m - 1))
                   = Some (format_comma n ++ " 원")%string
                   /\ value (pa * power (1 + 0.05 / 12) (Z.to_pos m)
                             + npa * power (1 + 0.10 / 12) (Z.to_pos m))%float
                      = Some q
                   /\ truncation q n).
    { intros col pa npa N m Hm.
      destruct (N m Hm) as (c & Hc & n & q & -> & _ & Hq & Ht).
      exists n, q. split; [exact Hc|]. split; [|exact Ht].
      unfold bal in Hq.
      destruct (Hpow m (proj2 (months_range m) Hm)) as [E5 E10].
      now rewrite E5, E10 in Hq. }
    cbn [allocation In] in Hin.
    destruct Hin as [H|[H|[H|[]]]]; injection H as <- <- <-.
    + exists c1. cbn [scenario_cols In]. split; [auto|]. split; [exact L1|].
      apply (cells c1 _ _ N1).
    + exists c2. cbn [scenario_cols In]. split; [auto|]. split; [exact L2|].
      apply (cells c2 _ _ N2).
    + exists c3. cbn [scenario_cols In]. split; [auto|]. split; [exact L3|].
      apply (cells c3 _ _ N3).
  - intros (name & fp & fn & m & Ha & Hm & Hinf).
    destruct (df_bal L total) as [e|t] eqn:H.
    + destruct (df_bal_raises total e H)
        as (name' & fp' & fn' & m' & Ha' & Hm' & He).
      pose proof (balance_nonneg total name' fp' fn' m' Hpos Hpow Ha' Hm')
        as Hnn.
      destruct (finite (bal L (total * fp') (total * fn') m')) eqn:F.
      * destruct (proj1 (FloatFacts.int_of_float_finite _) F) as [n Hn].
        rewrite He in Hn. discriminate Hn.
      * rewrite (FloatFacts.int_of_nonneg _ Hnn F) in He.
        injection He as <-. reflexivity.
    + pose proof (df_bal_finite total t H name fp fn m Ha Hm) as F.
      congruence.
Qed.

End Projection.

Lemma projection_table_witness :
  (0 <? 1000000)%float = true
  /\ exists t,
       df_bal SimpleLib.lib 1000000 = ok t
       /\ months_col t = [1; 2; 3; 4; 5; 6; 7; 8; 9; 10; 11; 12]
       /\ map fst (scenario_cols t) = [CONSERVATIVE; BALANCED; AGGRESSIVE]
       /\ exists col,
            nth_error (scenario_cols t) 0 = Some (CONSERVATIVE, col)
            /\ nth_error col 0 = Some "1,005,416 원"%string.
Proof.
  split; [reflexivity|].
  assert (Hpow : forall m, In m months ->
            pow SimpleLib.lib (1 + 0.05 / 12) m
            = power (1 + 0.05 / 12) (Z.to_pos m)
            /\ pow SimpleLib.lib (1 + 0.10 / 12) m
               = power (1 + 0.10 / 12) (Z.to_pos m)).
  { intros m Hm. cbn [months In] in Hm.
    repeat (destruct Hm as [<-|Hm]; [split; reflexivity|]). destruct Hm. }
  destruct (proj1 (projection_table SimpleLib.lib 1000000 eq_refl Hpow))
    as (t & H1 & H2 & H3 & H4).
  - intros name fp fn m Ha Hm.
    cbn [allocation In] in Ha. cbn [months In] in Hm.
    destruct Ha as [H|[H|[H|[]]]]; injection H as <- <- <-;
      repeat (destruct Hm as [<-|Hm]; [vm_compute; reflexivity|]); destruct Hm.
  - exists t. split; [exact H1|]. split; [exact H2|]. split; [exact H3|].
    vm_compute in H1. injection H1 as <-.
    eexists. split; reflexivity.
Defined.

(** Dropped, not rounded: 2.9 gives 2 and -2.9 gives -2. *)
Example int_drops_the_fraction :
  int_of_float 2.9 = ok 2 /\ int_of_float (-2.9) = ok (-2)
  /\ int_of_float 1006250 = ok 1006250.
Proof. repeat split; reflexivity. Qed.

(** C2 as stated fails twice.  The cells are those of binary64
    arithmetic, not of the formula: a total of 93,600 gives 94,106 in the
    first month of the first scenario, where the formula gives 94,107
    exactly.  And a positive total need not have a table: 1.79e308 is a
    positive, finite total whose first balance is beyond the largest
    binary64, so [int] raises; a row with that expected shortfall shows
    the heading and the assumptions of the projection and then stops. *)
Lemma projection_departs_from_formula :
  (0 <? 93600)%float = true
  /\ (exists t col,
        df_bal SimpleLib.lib 93600 = ok t
        /\ nth_error (scenario_cols t) 0 = Some (CONSERVATIVE, col)
        /\ nth_error col 0 = Some "94,106 원"%string)
  /\ int_of_float (bal SimpleLib.lib (93600 * 0.7) (93600 * 0.3) 1) = ok 94106
  /\ (balance_as_specified 93600 (70 # 100) (30 # 100) 1 == 94107)%Q
  /\ (0 <? 1.79e308)%float = true /\ finite 1.79e308 = true
  /\ bal SimpleLib.lib (1.79e308 * 0.7) (1.79e308 * 0.3) 1 = infinity
  /\ df_bal SimpleLib.lib 1.79e308 = raise OverflowError
  /\ outcome (projection_block SimpleLib.lib [(COL_EXPECTED, VNum 1.79e308)])
     = raise OverflowError.
Proof.
  split; [reflexivity|]. split.
  - eexists. eexists. split; [vm_compute; reflexivity|].
    split; reflexivity.
  - repeat split; vm_compute; reflexivity.
Qed.

(** ** The judgement column *)

Module SeriesFacts.

Lemma getitem_setitem (r : Series) (key : string) (v : cell) :
  getitem (setitem r key v) key = ok v.
Proof.
  induction r as [|[k w] r IH]; cbn [setitem getitem].
  - now rewrite String.eqb_refl.
  - destruct (String.eqb k key) eqn:E; cbn [getitem]; rewrite E; auto.
Qed.

Lemma getitem_setitem_other (r : Series) (key key' : string) (v : cell) :
  key' <> key -> getitem (setitem r key v) key' = getitem r key'.
Proof.
  intros N. induction r as [|[k w] r IH]; cbn [setitem getitem].
  - apply String.eqb_neq in N. rewrite String.eqb_sym in N. now rewrite N.
  - destruct (String.eqb k key) eqn:E; cbn [getitem].
    + apply String.eqb_eq in E. subst k.
      now rewrite (proj2 (String.eqb_neq key key')) by congruence.
    + now rewrite IH.
Qed.

Lemma contains_setitem (r : Series) (key : string) (v : cell) :
  contains (setitem r key v) key = true.
Proof.
  induction r as [|[k w] r IH]; cbn [setitem contains].
  - now rewrite String.eqb_refl.
  - destruct (String.eqb k key) eqn:E; cbn [contains]; rewrite E; auto.
Qed.

Lemma contains_setitem_other (r : Series) (key key' : string) (v : cell) :
  key' <> key -> contains (setitem r key v) key' = contains r key'.
Proof.
  intros N. induction r as [|[k w] r IH]; cbn [setitem contains].
  - apply String.eqb_neq in N. rewrite String.eqb_sym in N. now rewrite N.
  - destruct (String.eqb k key) eqn:E; cbn [contains].
    + apply String.eqb_eq in E. subst k.
      now rewrite (proj2 (String.eqb_neq key key')) by congruence.
    + now rewrite IH.
Qed.

(** An assignment to a label the row has keeps the labels; to a new
    label it adds it at the end. *)
Lemma labels_setitem (r : Series) (key : string) (v : cell) :
  map fst (setitem r key v)
  = if contains r key then map fst r else (map fst r ++ [key])%list.
Proof.
  induction r as [|[k w] r IH]; cbn [setitem contains map fst app].
  - reflexivity.
  - destruct (String.eqb k key) eqn:E; cbn [map fst].
    + reflexivity.
    + rewrite IH. now destruct (contains r key).
Qed.

Lemma contains_labels (r : Series) (key : string) :
  contains r key = existsb (String.eqb key) (map fst r).
Proof.
  induction r as [|[k w] r IH]; cbn [contains map fst existsb].
  - reflexivity.
  - rewrite (String.eqb_sym key k). destruct (String.eqb k key); auto.
Qed.

End SeriesFacts.

Section JudgementColumn.

Lemma judgement_number (p : float) :
  float_of_Z (final_judgement p)
  = if (RISK_THRESHOLD <=? p)%float then 0%float else 1%float.
Proof.
  unfold final_judgement. now destruct (RISK_THRESHOLD <=? p)%float.
Qed.

Lemma judge_row_sets_one_column_aux (r : Series) (p : float) :
  getitem r COL_P_RISK = ok (VNum p) ->
  exists j,
    judge_row r = ok j
    /\ getitem j COL_JUDGEMENT
       = ok (VNum (if (RISK_THRESHOLD <=? p)%float then 0 else 1)).
Proof.
  intros H. unfold judge_row. rewrite H. cbn [rbind as_float].
  eexists. split; [reflexivity|]. rewrite judgement_number.
  apply SeriesFacts.getitem_setitem.
Qed.

(** X1.  The judgement of a row with a numeric [p_risk] returns the row
    with the column [final_judgement] set to 0 when [p_risk >= 0.7] and
    to 1 otherwise, and with every other entry as it was; a column of
    that name already in the table is overwritten. *)
Theorem judge_row_sets_one_column (r : Series) (p : float) :
  getitem r COL_P_RISK = ok (VNum p) ->
  exists j,
    judge_row r = ok j
    /\ getitem j COL_JUDGEMENT
       = ok (VNum (if (RISK_THRESHOLD <=? p)%float then 0 else 1))
    /\ (forall key, key <> COL_JUDGEMENT ->
          getitem j key = getitem r key
          /\ contains j key = contains r key)
    /\ map fst j
       = if contains r COL_JUDGEMENT then map fst r
         else (map fst r ++ [COL_JUDGEMENT])%list.
Proof.
  intros H. unfold judge_row. rewrite H. cbn [rbind as_float].
  eexists. split; [reflexivity|]. rewrite judgement_number.
  split; [apply SeriesFacts.getitem_setitem|]. split.
  - intros key N. split.
    + now apply SeriesFacts.getitem_setitem_other.
    + now apply SeriesFacts.contains_setitem_other.
  - apply SeriesFacts.labels_setitem.
Qed.

(** X2.  The judgement of a row returns exactly when the row has a
    numeric [p_risk]: without the column it raises [KeyError], and on a
    string it raises [TypeError]. *)
Theorem judge_row_returns_iff (r : Series) :
  ((exists j, judge_row r = ok j)
   <-> exists p, getitem r COL_P_RISK = ok (VNum p))
  /\ (contains r COL_P_RISK = false ->
      judge_row r = raise (KeyError COL_P_RISK))
  /\ (forall s, getitem r COL_P_RISK = ok (VStr s) ->
      judge_row r = raise TypeError).
Proof.
  unfold judge_row. split; [split|split].
  - intros [j H]. destruct (getitem r COL_P_RISK) as [e|[p|s]];
      cbn [rbind as_float] in H; try discriminate H. now exists p.
  - intros [p H]. rewrite H. cbn [rbind as_float]. eexists; reflexivity.
  - intros H. now rewrite (getitem_absent r COL_P_RISK H).
  - intros s H. now rewrite H.
Qed.

(** X3.  The verdict the details show for a judged row is the judgement
    of the row's [p_risk]: the red box when [p_risk >= 0.7], the green
    one otherwise. *)
Theorem verdict_shown_is_judgement (r j : Series) (p : float) :
  getitem r COL_P_RISK = ok (VNum p) -> judge_row r = ok j ->
  verdict_block j
  = ([if (RISK_THRESHOLD <=? p)%float
      then st_error "🚨 리스크 (70%↑)" else st_success "✅ 정상"],
     ok tt)
  /\ (getitem j COL_JUDGEMENT = ok (VNum 0) <-> judge p = RISK).
Proof.
  intros Hp Hj.
  destruct (judge_row_sets_one_column_aux r p Hp) as (j' & Hj' & Hg).
  rewrite Hj in Hj'. injection Hj' as <-.
  unfold verdict_block. rewrite Hg, bind_lift_ok, judge_of_threshold.
  destruct (RISK_THRESHOLD <=? p)%float; split; try reflexivity;
    split; intros H; try reflexivity; discriminate H.
Qed.

End JudgementColumn.

Lemma judge_row_sets_one_column_witness :
  getitem Sample.alpha COL_P_RISK = ok (VNum 0.82)
  /\ exists j,
       judge_row Sample.alpha = ok j
       /\ getitem j COL_JUDGEMENT = ok (VNum 0).
Proof.
  split; [reflexivity|].
  destruct (judge_row_sets_one_column Sample.alpha 0.82 eq_refl)
    as (j & Hj & Hg & _).
  exists j. split; [exact Hj|exact Hg].
Defined.

Lemma verdict_shown_is_judgement_witness :
  judge_row Sample.beta = ok (Sample.judged Sample.beta)
  /\ verdict_block (Sample.judged Sample.beta)
     = ([st_success "✅ 정상"], ok tt).
Proof.
  split; [reflexivity|].
  exact (proj1 (verdict_shown_is_judgement Sample.beta
                  (Sample.judged Sample.beta) 0.35 eq_refl eq_refl)).
Defined.

(** ** The overview: search, counts, checkbox and table *)

Module FilterFacts.

Lemma rfilter_total {A : Type} (f : A -> res bool) (l : list A) :
  (forall a, In a l -> exists b, f a = ok b) ->
  rfilter f l = ok (filter (fun x => holds (f x)) l).
Proof.
  induction l as [|a l IH]; intros H; cbn [rfilter filter].
  - reflexivity.
  - destruct (H a (or_introl eq_refl)) as [b Hb].
    rewrite IH by (intros x Hx; apply H; now right).
    rewrite Hb. cbn [rbind holds]. now destruct b.
Qed.

Lemma rfilter_raises {A : Type} (f : A -> res bool) (l : list A)
    (P : exn -> Prop) :
  (forall a e, In a l -> f a = raise e -> P e) ->
  (exists a, In a l /\ exists e, f a = raise e) ->
  exists e, rfilter f l = raise e /\ P e.
Proof.
  intros HP [a [Ha [e He]]].
  induction l as [|x l IH]; [destruct Ha|]. cbn [rfilter].
  destruct (f x) as [e'|b] eqn:Fx; cbn [rbind].
  - exists e'. split; [reflexivity|]. apply (HP x e'); [now left|exact Fx].
  - destruct Ha as [->|Ha]; [unfold raise in He; congruence|].
    destruct IH as (e'' & Hr & Pe); [|exact Ha|].
    + intros y e0 Hy. apply HP. now right.
    + rewrite Hr. cbn [rbind]. exists e''. split; [reflexivity|exact Pe].
Qed.

Lemma filter_filter {A : Type} (p q : A -> bool) (l : list A) :
  filter q (filter p l) = filter (fun x => p x && q x) l.
Proof.
  induction l as [|a l IH]; cbn [filter]; [reflexivity|].
  destruct (p a); cbn [filter andb]; rewrite IH; reflexivity.
Qed.

Lemma Forall2_filter {A B : Type} (R : A -> B -> Prop)
    (q : A -> bool) (p : B -> bool) (l : list A) (l' : list B) :
  Forall2 R l l' -> (forall a b, R a b -> q a = p b) ->
  Forall2 R (filter q l) (filter p l').
Proof.
  intros H E. induction H as [|a b l l' Rab _ IH]; cbn [filter].
  - constructor.
  - rewrite (E a b Rab). destruct (p b); [constructor|]; assumption.
Qed.

Lemma filter_complement_length {A : Type} (p q : A -> bool) (l : list A) :
  (forall a, In a l -> q a = negb (p a)) ->
  (List.length (filter p l) + List.length (filter q l))%nat = List.length l.
Proof.
  induction l as [|a l IH]; intros H; cbn [filter]; [reflexivity|].
  rewrite (H a (or_introl eq_refl)).
  specialize (IH (fun x Hx => H x (or_intror Hx))).
  destruct (p a); cbn [negb List.length]; lia.
Qed.

End FilterFacts.

Section Overview.

Variable L : Lib.

(** *** The search *)

Lemma column_returns (df : list Series) (key : string) :
  (forall r, In r df -> contains r key = true) ->
  exists col, column df key = ok col.
Proof.
  intros H. apply ListFacts.rmap_total. intros r Hr.
  now apply contains_getitem, H.
Qed.

Lemma column_raises (df : list Series) (key : string) :
  (exists r, In r df /\ contains r key = false) ->
  column df key = raise (KeyError key).
Proof.
  unfold column. induction df as [|a df IH]; intros (r & Hr & Hk).
  - destruct Hr.
  - cbn [rmap]. destruct (contains a key) eqn:Ca.
    + destruct (proj1 (contains_getitem a key) Ca) as [c ->].
      cbn [rbind]. rewrite IH; [reflexivity|].
      destruct Hr as [<-|Hr]; [congruence|]. now exists r.
    + now rewrite (getitem_absent a key Ca).
Qed.

Lemma mask_returns (df : list Series) (company : string)
    (found_in : string -> bool) :
  str_contains L company = Some found_in ->
  (forall r, In r df ->
     contains r COL_REGNO = true /\ contains r COL_NAME = true) ->
  exists keep, mask L df company = ok keep.
Proof.
  intros Hc Hcols. unfold mask, contains_column.
  destruct (column_returns df COL_REGNO) as [regnos ->];
    [intros r Hr; now apply Hcols|].
  destruct (column_returns df COL_NAME) as [names ->];
    [intros r Hr; now apply Hcols|].
  cbn [rbind]. rewrite Hc. eexists. reflexivity.
Qed.

Lemma search_runs (df : list Series) (company : string)
    (found_in : string -> bool) :
  company <> "" ->
  str_contains L company = Some found_in ->
  (forall r, In r df ->
     contains r COL_REGNO = true /\ contains r COL_NAME = true) ->
  let found := filter (fun r => holds (search_mask L company r)) df in
  search L df company
  = (match found with [] => [st_warning "검색 결과 없음"] | _ :: _ => [] end,
     ok found).
Proof.
  intros Hne Hc Hcols found. unfold search.
  rewrite (proj2 (String.eqb_neq company "") Hne).
  destruct (mask_returns df company found_in Hc Hcols) as [keep Hk].
  rewrite Hk, bind_lift_ok.
  rewrite (rows_where_filter _ _ _ (proj2 (mask_inv L df company keep Hk))).
  fold found. now destruct found.
Qed.

(** X4.  With a search text that compiles as a regular expression and
    both identity columns in every row, the search returns, in the order
    of the table, exactly the rows in whose registration number or name,
    as strings, the pattern is found, and it shows the warning exactly
    when there is no such row. *)
Theorem search_keeps_matching_rows (df : list Series) (company : string)
    (found_in : string -> bool) :
  company <> "" ->
  str_contains L company = Some found_in ->
  (forall r, In r df ->
     contains r COL_REGNO = true /\ contains r COL_NAME = true) ->
  let found := filter (fun r => holds (search_mask L company r)) df in
  search L df company
  = (match found with [] => [st_warning "검색 결과 없음"] | _ :: _ => [] end,
     ok found)
  /\ forall r, In r found <->
       In r df /\ exists regno name,
         getitem r COL_REGNO = ok regno /\ getitem r COL_NAME = ok name
         /\ (found_in (str L regno) || found_in (str L name)) = true.
Proof.
  intros Hne Hc Hcols found. split.
  - exact (search_runs df company found_in Hne Hc Hcols).
  - intros r. unfold found. rewrite filter_In.
    split.
    + intros [Hr Hm]. split; [exact Hr|].
      destruct (Hcols r Hr) as [Cr Cn].
      destruct (proj1 (contains_getitem r COL_REGNO) Cr) as [regno Hg].
      destruct (proj1 (contains_getitem r COL_NAME) Cn) as [name Hn].
      exists regno, name. split; [exact Hg|]. split; [exact Hn|].
      rewrite (search_mask_row L company r regno name found_in Hg Hn Hc)
        in Hm.
      cbn [holds] in Hm. now destruct (_ || _).
    + intros [Hr (regno & name & Hg & Hn & Hm)]. split; [exact Hr|].
      rewrite (search_mask_row L company r regno name found_in Hg Hn Hc).
      cbn [holds]. now rewrite Hm.
Qed.

(** X5.  An empty search box keeps the whole table, shows nothing and
    reads no column.  With text in it the search stops the script,
    nothing shown, in three cases, tried in this order: a table without
    the registration number raises its [KeyError]; a text that is no
    regular expression raises [re.error]; a table without the name
    raises its [KeyError]. *)
Theorem search_needs_identity_columns (df : list Series) (company : string) :
  search L df "" = ([], ok df)
  /\ (company <> "" ->
      ((exists r, In r df /\ contains r COL_REGNO = false) ->
       search L df company = ([], raise (KeyError COL_REGNO)))
      /\ ((forall r, In r df -> contains r COL_REGNO = true) ->
          str_contains L company = None ->
          search L df company = ([], raise ReError))
      /\ (forall found_in,
            (forall r, In r df -> contains r COL_REGNO = true) ->
            str_contains L company = Some found_in ->
            (exists r, In r df /\ contains r COL_NAME = false) ->
            search L df company = ([], raise (KeyError COL_NAME)))).
Proof.
  split; [reflexivity|]. intros Hne.
  unfold search. rewrite (proj2 (String.eqb_neq company "") Hne).
  unfold mask, contains_column.
  split; [|split].
  - intros Hmiss. now rewrite (column_raises df COL_REGNO Hmiss).
  - intros Hall Hc.
    destruct (column_returns df COL_REGNO Hall) as [regnos ->].
    cbn [rbind]. now rewrite Hc.
  - intros found_in Hall Hc Hmiss.
    destruct (column_returns df COL_REGNO Hall) as [regnos ->].
    cbn [rbind]. rewrite Hc. cbn [rbind].
    now rewrite (column_raises df COL_NAME Hmiss).
Qed.

(** *** The counts *)

Lemma judge_row_inv (r j : Series) :
  judge_row r = ok j ->
  exists p,
    getitem r COL_P_RISK = ok (VNum p)
    /\ j = setitem r COL_JUDGEMENT (VNum (float_of_Z (final_judgement p))).
Proof.
  unfold judge_row.
  destruct (getitem r COL_P_RISK) as [e|[p|s]]; cbn [rbind as_float];
    intros H; try discriminate H.
  injection H as <-. now exists p.
Qed.

Lemma judged_flags (r j : Series) :
  judge_row r = ok j ->
  judgement_is 0 j = ok (Table.at_risk r)
  /\ judgement_is 1 j = ok (negb (Table.at_risk r)).
Proof.
  intros H. destruct (judge_row_inv r j H) as (p & Hp & ->).
  unfold judgement_is, Table.at_risk.
  rewrite SeriesFacts.getitem_setitem, Hp, judgement_number.
  unfold ok. cbn [rbind].
  destruct (RISK_THRESHOLD <=? p)%float; split; reflexivity.
Qed.

Lemma Forall2_In_r {A B : Type} (R : A -> B -> Prop)
    (l : list A) (l' : list B) (b : B) :
  Forall2 R l l' -> In b l' -> exists a, In a l /\ R a b.
Proof.
  induction 1 as [|x y l l' Rxy _ IH]; intros Hb; [destruct Hb|].
  destruct Hb as [<-|Hb].
  - exists x. split; [now left|exact Rxy].
  - destruct (IH Hb) as (a & Ha & Ra). exists a. split; [now right|exact Ra].
Qed.

Lemma statistics_run (found judged : list Series) :
  rmap judge_row found = ok judged ->
  let total := List.length found in
  let risk := List.length (filter Table.at_risk found) in
  let normal := List.length (filter (fun r => negb (Table.at_risk r)) found) in
  statistics judged
  = ([ st_markdown "### 전체 통계";
       st_metric "전체 기업 수" (str_int (Z.of_nat total));
       st_metric "리스크 기업 수" (str_int (Z.of_nat risk));
       st_metric "정상 기업 수" (str_int (Z.of_nat normal)) ],
     ok tt)
  /\ (risk + normal)%nat = total.
Proof.
  intros H total risk normal.
  apply ListFacts.rmap_ok in H.
  assert (F0 : Forall2 (fun r j => judge_row r = ok j)
                 (filter Table.at_risk found)
                 (filter (fun j => holds (judgement_is 0 j)) judged)).
  { apply FilterFacts.Forall2_filter; [exact H|].
    intros r j Hj. rewrite (proj1 (judged_flags r j Hj)).
    now destruct (Table.at_risk r). }
  assert (F1 : Forall2 (fun r j => judge_row r = ok j)
                 (filter (fun r => negb (Table.at_risk r)) found)
                 (filter (fun j => holds (judgement_is 1 j)) judged)).
  { apply FilterFacts.Forall2_filter; [exact H|].
    intros r j Hj. rewrite (proj2 (judged_flags r j Hj)).
    now destruct (Table.at_risk r). }
  split.
  - unfold statistics.
    rewrite !FilterFacts.rfilter_total.
    + rewrite !bind_emit, bind_lift_ok, bind_emit, bind_lift_ok.
      unfold total, risk, normal.
      rewrite (Forall2_length H), (Forall2_length F0), (Forall2_length F1).
      reflexivity.
    + intros j Hj. destruct (Forall2_In_r _ _ _ _ H Hj) as (r & _ & Hr).
      rewrite (proj2 (judged_flags r j Hr)). eexists; reflexivity.
    + intros j Hj. destruct (Forall2_In_r _ _ _ _ H Hj) as (r & _ & Hr).
      rewrite (proj1 (judged_flags r j Hr)). eexists; reflexivity.
  - apply FilterFacts.filter_complement_length. reflexivity.
Qed.

(** X6.  The three counts of the statistics are the number of rows of
    the judged table, the number of those with [p_risk >= 0.7] and the
    number of the others: the last two add up to the first. *)
Theorem statistics_counts (found judged : list Series) :
  rmap judge_row found = ok judged ->
  let total := List.length found in
  let risk := List.length (filter Table.at_risk found) in
  let normal := List.length (filter (fun r => negb (Table.at_risk r)) found) in
  statistics judged
  = ([ st_markdown "### 전체 통계";
       st_metric "전체 기업 수" (str_int (Z.of_nat total));
       st_metric "리스크 기업 수" (str_int (Z.of_nat risk));
       st_metric "정상 기업 수" (str_int (Z.of_nat normal)) ],
     ok tt)
  /\ (risk + normal)%nat = total.
Proof. exact (statistics_run found judged). Qed.

(** X8.  The counts are taken before the checkbox is read: when the
    search keeps some row, a run shows the same statistics with the box
    set or not, those of every row the search kept. *)
Theorem statistics_ignore_checkbox (df found judged : list Series)
    (company : string) (show_risk_only : bool) :
  outcome (search L df company) = ok found -> found <> [] ->
  rmap judge_row found = ok judged ->
  exists rest,
    shown (overview L df company show_risk_only)
    = (shown (search L df company)
       ++ [ st_markdown "### 전체 통계";
            st_metric "전체 기업 수" (str_int (Z.of_nat (List.length found)));
            st_metric "리스크 기업 수"
              (str_int (Z.of_nat (List.length (filter Table.at_risk found))));
            st_metric "정상 기업 수"
              (str_int (Z.of_nat (List.length
                 (filter (fun r => negb (Table.at_risk r)) found)))) ]
       ++ rest)%list.
Proof.
  intros Hs _ Hj. unfold overview.
  rewrite (bind_ok _ _ _ Hs). cbn [shown fst].
  rewrite Hj, bind_lift_ok.
  destruct (statistics_run found judged Hj) as [Hst _].
  rewrite (bind_ok _ _ tt) by (now rewrite Hst).
  rewrite Hst. cbn [shown fst]. eexists. reflexivity.
Qed.

(** *** The table the details are taken from *)

(** X7.  When the search keeps some row, a run of the overview that
    returns leaves, in the order of the prediction table, the judged
    form of exactly the rows that the search keeps and, with the
    checkbox set, that are judged at risk. *)
Theorem overview_table (df result : list Series) (company : string)
    (show_risk_only : bool) :
  filter (selected L company false) df <> [] ->
  outcome (overview L df company show_risk_only) = ok result ->
  Forall2 (fun r j => judge_row r = ok j)
    (filter (selected L company show_risk_only) df) result.
Proof.
  intros _ H. apply overview_result in H.
  destruct H as (found & judged & -> & Hj & ->).
  replace (filter (selected L company show_risk_only) df)
    with (filter (fun r => negb show_risk_only
                           || holds (let? j := judge_row r in judgement_is 0 j))
            (filter (fun r => String.eqb company ""
                              || holds (search_mask L company r)) df))
    by (rewrite FilterFacts.filter_filter; reflexivity).
  apply FilterFacts.Forall2_filter; [exact Hj|].
  intros r j Hr. now rewrite Hr.
Qed.

End Overview.

(** ** The overview of a well-formed table *)

Section WellFormed.

Variable L : Lib.

Lemma outcome_bind_ok {A B : Type} (c : ui A) (k : A -> ui B) (a : A) :
  outcome c = ok a -> outcome (bind c k) = outcome (k a).
Proof. intros H. now rewrite (bind_ok c k a H). Qed.

Lemma search_returns (df : list Series) (company : string) :
  (forall r, In r df ->
     contains r COL_REGNO = true /\ contains r COL_NAME = true) ->
  company = "" \/ (exists found_in, str_contains L company = Some found_in) ->
  exists found,
    outcome (search L df company) = ok found
    /\ forall r, In r found -> In r df.
Proof.
  intros Hcols Hc.
  destruct (String.eqb company "") eqn:E.
  - apply String.eqb_eq in E. subst company.
    exists df. split; [reflexivity|auto].
  - apply String.eqb_neq in E.
    destruct Hc as [->|[found_in Hc]]; [now elim E|].
    exists (filter (fun r => holds (search_mask L company r)) df). split.
    + now rewrite (search_runs L df company found_in E Hc Hcols).
    + intros r Hr. apply filter_In in Hr. tauto.
Qed.

(** A row that the search keeps was tested with a compiled pattern. *)
Lemma selected_compiles (company : string) (b : bool) (r : Series) :
  selected L company b r = true ->
  company = "" \/ exists found_in, str_contains L company = Some found_in.
Proof.
  unfold selected. intros H. apply andb_prop in H. destruct H as [H _].
  destruct (String.eqb company "") eqn:E.
  - left. now apply String.eqb_eq.
  - right. cbn [orb] in H. unfold search_mask in H.
    destruct (mask L [r] company) as [e|keep] eqn:Hk; [discriminate H|].
    exact (proj1 (mask_inv L [r] company keep Hk)).
Qed.

Lemma judged_cell (r j : Series) (key : string) :
  judge_row r = ok j -> contains r key = true ->
  exists v, getitem j key = ok v.
Proof.
  intros Hj Hk. destruct (judge_row_inv r j Hj) as (p & _ & ->).
  destruct (String.eqb key COL_JUDGEMENT) eqn:E.
  - apply String.eqb_eq in E. subst key.
    rewrite SeriesFacts.getitem_setitem. eexists; reflexivity.
  - apply String.eqb_neq in E.
    rewrite (SeriesFacts.getitem_setitem_other _ _ _ _ E).
    now apply contains_getitem.
Qed.

Lemma judged_contains (r j : Series) (key : string) :
  judge_row r = ok j -> key <> COL_JUDGEMENT ->
  contains j key = contains r key.
Proof.
  intros Hj N. destruct (judge_row_inv r j Hj) as (p & _ & ->).
  now apply SeriesFacts.contains_setitem_other.
Qed.

Lemma table_returns (result : list Series) :
  (forall j c, In j result -> In c (show_cols result) ->
     exists v, getitem j c = ok v) ->
  outcome (table result) = ok tt.
Proof.
  intros H. unfold table.
  rewrite bind_emit. cbn [outcome snd].
  destruct (ListFacts.rmap_total
              (fun r => rmap (getitem r) (show_cols result)) result)
    as [rows Hrows].
  - intros j Hj. apply ListFacts.rmap_total. intros c Hc. now apply H.
  - rewrite Hrows, bind_lift_ok. reflexivity.
Qed.

(** X9.  On a well-formed prediction table of which the search keeps
    at least one row, which takes a search text that is empty or
    compiles as a regular expression, the overview raises nothing, with
    the checkbox set or not: it returns the table the details are taken
    from. *)
Theorem overview_returns (df : list Series) (company : string)
    (show_risk_only : bool) :
  Table.well_formed df ->
  (exists r, In r df /\ selected L company false r = true) ->
  exists result, outcome (overview L df company show_risk_only) = ok result.
Proof.
  intros [Hrows Hsame] (kept & _ & Hsel).
  destruct (search_returns df company) as (found & Hs & Hf);
    [intros r Hr; destruct (Hrows r Hr); tauto
    |exact (selected_compiles company false kept Hsel)|].
  destruct (ListFacts.rmap_total judge_row found) as [judged Hj].
  { intros r Hr. destruct (Hrows r (Hf r Hr)) as (_ & _ & _ & p & Hp).
    unfold judge_row. rewrite Hp. eexists; reflexivity. }
  pose proof (ListFacts.rmap_ok _ _ _ Hj) as F.
  set (result := if show_risk_only
                 then filter (fun j => holds (judgement_is 0 j)) judged
                 else judged).
  assert (Hin : forall j, In j result ->
                  exists r, In r df /\ judge_row r = ok j).
  { intros j Hjr.
    assert (In j judged) as Hjj.
    { unfold result in Hjr. destruct show_risk_only; [|exact Hjr].
      apply filter_In in Hjr. tauto. }
    destruct (Forall2_In_r _ _ _ _ F Hjj) as (r & Hr & Hrj).
    exists r. split; [now apply Hf|exact Hrj]. }
  exists result. unfold overview.
  rewrite (outcome_bind_ok _ _ _ Hs), Hj, bind_lift_ok.
  rewrite (outcome_bind_ok _ _ tt)
    by (now rewrite (proj1 (statistics_run found judged Hj))).
  assert (Hc : outcome (if show_risk_only
                        then lift (rfilter (judgement_is 0) judged)
                        else ret judged) = ok result).
  { unfold result. destruct show_risk_only; [|reflexivity].
    rewrite FilterFacts.rfilter_total; [reflexivity|].
    intros j Hjj. destruct (Forall2_In_r _ _ _ _ F Hjj) as (r & _ & Hrj).
    rewrite (proj1 (judged_flags r j Hrj)). eexists; reflexivity. }
  rewrite (outcome_bind_ok _ _ _ Hc).
  rewrite (outcome_bind_ok _ _ tt); [reflexivity|].
  apply table_returns. intros j c Hjr Hcol.
  destruct (Hin j Hjr) as (r & Hr & Hrj).
  destruct (Hrows r Hr) as (Cr & Cn & Cq & p & Hp).
  unfold show_cols in Hcol. apply in_app_or in Hcol.
  destruct Hcol as [Hbase|Hopt].
  - cbn [In] in Hbase.
    destruct Hbase as [<-|[<-|[<-|[<-|[<-|[]]]]]];
      try (apply (judged_cell r j _ Hrj); assumption).
    + apply (judged_cell r j _ Hrj). apply contains_getitem. eauto.
    + destruct (judge_row_inv r j Hrj) as (p' & _ & ->).
      rewrite SeriesFacts.getitem_setitem. eexists; reflexivity.
  - apply filter_In in Hopt. destruct Hopt as [Hc' Hex].
    assert (N : c <> COL_JUDGEMENT).
    { cbn [In] in Hc'. destruct Hc' as [<-|[<-|[]]]; discriminate. }
    destruct result as [|j0 rest] eqn:Eres; [destruct Hjr|].
    cbn [columns] in Hex. rewrite <- SeriesFacts.contains_labels in Hex.
    destruct (Hin j0 (or_introl eq_refl)) as (r0 & Hr0 & Hrj0).
    rewrite (judged_contains r0 j0 c Hrj0 N) in Hex.
    apply (judged_cell r j c Hrj).
    rewrite SeriesFacts.contains_labels, (Hsame r r0 Hr Hr0),
      <- SeriesFacts.contains_labels.
    exact Hex.
Qed.

End WellFormed.

Lemma overview_returns_witness :
  Table.well_formed Sample.df
  /\ exists result, outcome (overview SimpleLib.lib Sample.df "Alpha" true)
                    = ok result.
Proof.
  assert (W : Table.well_formed Sample.df).
  { split.
    - intros r Hr. cbn [Sample.df In] in Hr.
      destruct Hr as [<-|[<-|[<-|[]]]];
        (repeat split; try reflexivity; eexists; reflexivity).
    - intros r r' Hr Hr'. cbn [Sample.df In] in Hr, Hr'.
      destruct Hr as [<-|[<-|[<-|[]]]], Hr' as [<-|[<-|[<-|[]]]];
        reflexivity. }
  split; [exact W|].
  apply (overview_returns SimpleLib.lib Sample.df "Alpha" true W).
  exists Sample.alpha. split; [right; left; reflexivity|reflexivity].
Defined.

(** ** The blocks of the details *)

Section DetailBlocks.

Variable L : Lib.

(** *** The explanation *)

Lemma for_each_bullets {A : Type} (skip : A -> bool) (w : A -> widget)
    (l : list A) :
  for_each l (fun x => if skip x then ret tt else emit (w x))
  = (map w (filter (fun x => negb (skip x)) l), ok tt).
Proof.
  induction l as [|x l IH]; cbn [for_each filter map]; [reflexivity|].
  destruct (skip x); cbn [negb map].
  - now rewrite bind_ret_l.
  - now rewrite bind_emit, IH.
Qed.

(** X10.  The explanation is shown for a row judged at risk and for no
    other.  For a row at risk it is the heading and one bullet for each
    piece of the text between the separators [" / "], stripped, the
    pieces that are blank left out; such a row without the column
    [explanation] raises [KeyError] after the heading.  A row not at
    risk shows nothing, and its explanation is not read. *)
Theorem explanation_bullets (row : Series) (judgement : cell) :
  getitem row COL_JUDGEMENT = ok judgement ->
  (verdict_of judgement = NORMAL -> explanation_block L row = ret tt)
  /\ (verdict_of judgement = RISK ->
      (forall e, getitem row COL_EXPLANATION = ok e ->
         explanation_block L row
         = (st_markdown "### 📌 설명 근거"
              :: map (fun line => st_markdown ("- ✔ " ++ str_strip L line)%string)
                   (filter (fun line =>
                              negb (String.eqb (str_strip L line) ""))
                      (str_split L (str L e) " / ")),
            ok tt))
      /\ (contains row COL_EXPLANATION = false ->
          explanation_block L row
          = ([st_markdown "### 📌 설명 근거"],
             raise (KeyError COL_EXPLANATION)))).
Proof.
  intros Hj. unfold explanation_block. rewrite Hj, bind_lift_ok.
  destruct (verdict_of judgement); split; try discriminate;
    try (intros _; reflexivity).
  intros _. split.
  - intros e He. rewrite bind_emit, He, bind_lift_ok, for_each_bullets.
    reflexivity.
  - intros He. rewrite bind_emit, (getitem_absent _ _ He). reflexivity.
Qed.

(** *** The message of the comparison *)



(** *** The whole shortfall block *)

(** X12.  For a row whose two shortfalls are finite numbers with a
    finite difference, whose expected shortfall is above 0 and whose
    projection returns, the shortfall block shows, in this order, its
    heading, the two amounts, the one message of the comparison, a
    rule, the heading of the projection, its assumptions and its table,
    and raises nothing. *)
Theorem shortfall_block_shown (row : Series) (expected actual : float)
    (ne na nd : Z) (t : BalanceTable) :
  getitem row COL_EXPECTED = ok (VNum expected) ->
  getitem row COL_ACTUAL = ok (VNum actual) ->
  int_of_float expected = ok ne -> int_of_float actual = ok na ->
  int_of_float (actual - expected) = ok nd ->
  (0 <? expected)%float = true -> df_bal L expected = ok t ->
  exists message,
    shortfall_block L row
    = ([ st_markdown COMPARISON_HEADING;
         st_metric "예상 부족액" (format_comma ne ++ " 원")%string;
         st_metric "실제 부족액" (format_comma na ++ " 원")%string;
         message;
         st_markdown "---";
         st_markdown PROJECTION_HEADING;
         st_write "가정: 원리금 보장 5%, 비원리금 10% (연이율, 1년 만기 기준)";
         st_dataframe_bal t ],
       ok tt)
    /\ comparison_message (actual - expected) = ([message], ok tt).
Proof.
  intros He Ha Hne Hna Hnd Hpos Ht.
  pose proof (comparison_message_shown _ _ Hnd) as Hm.
  eexists. split; [|exact Hm].
  rewrite (comparison_runs L row expected actual ne na He Ha Hne Hna).
  cbn [compare fst]. rewrite (bind_ok _ _ tt) by (now rewrite Hm).
  unfold projection_block.
  rewrite He, bind_lift_ok. cbn [as_float]. rewrite bind_lift_ok, Hpos.
  rewrite !bind_emit, Ht, bind_lift_ok, Hm. reflexivity.
Qed.

(** X13.  The projection sits inside the comparison block: a row
    without the column of the actual shortfall shows nothing of the
    projection, whatever its expected shortfall. *)
Theorem projection_needs_actual_shortfall
    (row : Series) (raw_df : list RawRow) (w : widget) :
  contains row COL_ACTUAL = false ->
  In w (shown (details L row raw_df)) -> is_projection w = false.
Proof.
  intros Ha. revert w. apply Forall_forall.
  change (only (plain) (details L row raw_df)).
  unfold details.
  apply only_bind; [apply header_plain|intros _ _].
  apply only_bind; [|intros _ _].
  - unfold shortfall_block. rewrite Ha, andb_false_r. apply only_ret.
  - apply only_bind; [apply explanation_plain|intros _ _].
    apply trend_plain.
Qed.

End DetailBlocks.

(** ** The chart, the projection and the rendering of amounts *)

Section TrendShown.

Lemma SFcompare_refl (x : spec_float) :
  x <> S754_nan -> SFcompare x x = Some Eq.
Proof.
  destruct x as [s|s| |s m e]; intros H; cbn [SFcompare].
  - reflexivity.
  - now destruct s.
  - now elim H.
  - rewrite Z.compare_refl.
    change (PosDef.Pos.compare_cont Eq m m) with (Pos.compare m m).
    rewrite Pos.compare_refl. now destruct s.
Qed.

(** A missing value equals nothing, not even itself. *)
Lemma missing_equals_nothing (x : float) (c : cell) :
  (x =? x)%float = false -> cell_eqb c (VNum x) = false.
Proof.
  intros H. destruct c as [y|s]; [|reflexivity]. cbn [cell_eqb].
  rewrite eqb_spec in *. unfold SFeqb in *.
  destruct (Prim2SF x) as [s|s| |s m e] eqn:Ex;
    try (rewrite SFcompare_refl in H by discriminate; discriminate H).
  now destruct (Prim2SF y).
Qed.

Lemma trend_block_run (row : Series) (raw_df : list RawRow) (key : cell) :
  getitem row COL_REGNO = ok key ->
  trend_block row raw_df
  = ([ st_markdown "---"; st_markdown "### 📈 연도별 지표 트렌드";
       match filter (fun r => cell_eqb (raw_regno r) key) raw_df with
       | [] => st_warning "해당 기업의 원본 연도별 데이터가 없습니다."
       | firm => st_line_chart (chart_df firm)
       end ],
     ok tt).
Proof.
  intros H. unfold trend_block, firm_data.
  rewrite (proj2 (contains_getitem row COL_REGNO)) by eauto.
  rewrite H. unfold ok. cbn [rbind]. fold (@ok (list RawRow)).
  rewrite !bind_emit, bind_lift_ok.
  now destruct (filter _ raw_df).
Qed.

(** X14.  For a row with a registration number the trend section raises
    nothing and shows, after its two headings, one thing: the chart of
    the rows of the indicator table with that number, one row of the
    chart for each, when there is such a row, and the warning that the
    company has no yearly data when there is none. *)
Theorem trend_chart_or_warning (row : Series) (raw_df : list RawRow)
    (key : cell) :
  getitem row COL_REGNO = ok key ->
  let firm := filter (fun r => cell_eqb (raw_regno r) key) raw_df in
  trend_block row raw_df
  = ([ st_markdown "---"; st_markdown "### 📈 연도별 지표 트렌드";
       match firm with
       | [] => st_warning "해당 기업의 원본 연도별 데이터가 없습니다."
       | _ :: _ => st_line_chart (chart_df firm)
       end ],
     ok tt)
  /\ List.length (chart_df firm) = List.length firm
  /\ forall r, In r firm <->
       In r raw_df /\ cell_eqb (raw_regno r) key = true.
Proof.
  intros H firm. split; [|split].
  - rewrite (trend_block_run row raw_df key H). fold firm.
    now destruct firm.
  - unfold chart_df. apply length_map.
  - intros r. unfold firm. apply filter_In.
Qed.

(** X15.  A row whose registration number is a missing value finds no
    yearly data in any indicator table, its own rows included: the
    trend section shows the warning. *)
Theorem missing_regno_shows_warning (row : Series) (raw_df : list RawRow)
    (x : float) :
  getitem row COL_REGNO = ok (VNum x) -> (x =? x)%float = false ->
  trend_block row raw_df
  = ([ st_markdown "---"; st_markdown "### 📈 연도별 지표 트렌드";
       st_warning "해당 기업의 원본 연도별 데이터가 없습니다." ],
     ok tt).
Proof.
  intros H Hx. rewrite (trend_block_run row raw_df _ H).
  replace (filter (fun r => cell_eqb (raw_regno r) (VNum x)) raw_df)
    with (@nil RawRow); [reflexivity|].
  symmetry. induction raw_df as [|r l IH]; cbn [filter]; [reflexivity|].
  now rewrite (missing_equals_nothing x (raw_regno r) Hx).
Qed.

End TrendShown.

Section ProjectionReturns.

Variable L : Lib.

Lemma int_of_float_raises (x : float) (e : exn) :
  int_of_float x = raise e -> e = OverflowError \/ e = ValueError.
Proof.
  unfold int_of_float.
  destruct (Prim2SF x); intros H; try discriminate H;
    injection H as <-; auto.
Qed.

(** X16.  The projection returns its table exactly when each of the
    thirty-six balances is a finite number; when it does not, it raises
    [OverflowError] (a balance is infinite) or [ValueError] (a balance
    is [NaN]) and nothing else. *)
Theorem projection_returns_iff_finite (total : float) :
  ((exists t, df_bal L total = ok t) <->
   (forall name fp fn m,
       In (name, (fp, fn)) allocation -> In m months ->
       finite (bal L (total * fp) (total * fn) m) = true))
  /\ (forall e, df_bal L total = raise e ->
        e = OverflowError \/ e = ValueError).
Proof.
  split; [split|].
  - intros [t Ht]. exact (df_bal_finite L total t Ht).
  - exact (df_bal_returns L total).
  - intros e H.
    destruct (df_bal_raises L total e H) as (name & fp & fn & m & _ & _ & Hn).
    exact (int_of_float_raises _ _ Hn).
Qed.

End ProjectionReturns.

Section Amounts.

Lemma digits_no_comma (d : Decimal.uint) :
  Forall (fun c => Table.not_comma c = true)
    (list_ascii_of_string (NilEmpty.string_of_uint d)).
Proof.
  induction d; cbn [NilEmpty.string_of_uint list_ascii_of_string];
    constructor; try reflexivity; assumption.
Qed.

Lemma filter_commas (l : list ascii) (seen : nat) :
  Forall (fun c => Table.not_comma c = true) l ->
  filter Table.not_comma (commas l seen) = l.
Proof.
  intros H. revert seen. induction H as [|c l Hc _ IH]; intros seen;
    cbn [commas]; [reflexivity|].
  destruct (Nat.eqb seen 3); cbn [filter]; try rewrite Hc;
    cbn [negb]; rewrite IH; reflexivity.
Qed.

Lemma list_ascii_of_append (a b : string) :
  list_ascii_of_string (a ++ b)
  = (list_ascii_of_string a ++ list_ascii_of_string b)%list.
Proof.
  induction a as [|c a IH]; cbn [String.append list_ascii_of_string app];
    congruence.
Qed.

Lemma filter_rev {A : Type} (p : A -> bool) (l : list A) :
  filter p (rev l) = rev (filter p l).
Proof.
  induction l as [|a l IH]; cbn [rev filter]; [reflexivity|].
  rewrite filter_app, IH. cbn [filter].
  destruct (p a); [reflexivity|]. cbn [rev]. now rewrite app_nil_r.
Qed.

Lemma digits_plain (n : Z) :
  Forall (fun c => Table.not_comma c = true) (digits n).
Proof.
  unfold digits, NilZero.string_of_uint.
  destruct (N.to_uint (Z.to_N n)) eqn:E;
    try (rewrite <- E; apply digits_no_comma).
  repeat constructor.
Qed.

Lemma grouped_digits (n : Z) :
  filter Table.not_comma (rev (commas (rev (digits n)) 0)) = digits n.
Proof.
  rewrite filter_rev, filter_commas, rev_involutive; [reflexivity|].
  apply Forall_rev, digits_plain.
Qed.

(** X17.  The commas of a rendered amount are separators and nothing
    else: read without them, the rendering of [n] is the decimal
    numeral of [n], sign included. *)
Theorem format_comma_digits (n : Z) :
  Table.without_commas (format_comma n) = str_int n.
Proof.
  unfold Table.without_commas, format_comma.
  rewrite list_ascii_of_append, filter_app,
    list_ascii_of_string_of_list_ascii, grouped_digits.
  unfold str_int, digits.
  destruct n as [|p|p]; cbn [Z.ltb Z.compare Z.abs Z.to_N Z.to_int N.to_uint
                             NilZero.string_of_int list_ascii_of_string
                             filter app];
    try (change (Table.not_comma "-") with true; cbn iota;
         cbn [app string_of_list_ascii]);
    rewrite ?string_of_list_ascii_of_string; reflexivity.
Qed.

End Amounts.

(** ** The table of results *)

Section ResultTable.

Variable L : Lib.

(** X18.  The table of results of a table with rows has the five fixed
    columns followed by those of the expected and the actual shortfall
    that the table has, and no other; each of its rows is the row of
    the table cut down to these columns, in the order of the table.
    When it is shown, nothing was raised. *)
Theorem table_columns (result : list Series) (cols : list string)
    (rows : list (list cell)) :
  result <> [] ->
  In (st_dataframe cols rows) (shown (table result)) ->
  cols = ([COL_REGNO; COL_NAME; COL_P_RISK; COL_P_NORMAL; COL_JUDGEMENT]
          ++ (if existsb (String.eqb COL_EXPECTED) (columns result)
              then [COL_EXPECTED] else [])
          ++ (if existsb (String.eqb COL_ACTUAL) (columns result)
              then [COL_ACTUAL] else []))%list
  /\ Forall2 (fun r cells =>
                Forall2 (fun c v => getitem r c = ok v) cols cells)
       result rows
  /\ table result = ([st_subheader "기업별 예측 결과"; st_dataframe cols rows],
                     ok tt).
Proof.
  intros _ Hin. unfold table in *. rewrite bind_emit in *.
  cbn [shown fst In] in Hin. destruct Hin as [Hin|Hin]; [discriminate Hin|].
  destruct (rmap (fun r => rmap (getitem r) (show_cols result)) result)
    as [e|rows'] eqn:Hrows.
  - destruct Hin.
  - rewrite bind_lift_ok in *. cbn [emit shown fst In] in Hin.
    destruct Hin as [Hin|[]]. injection Hin as <- <-.
    split; [|split].
    + unfold show_cols. cbn [filter].
      destruct (existsb (String.eqb COL_EXPECTED) (columns result)),
               (existsb (String.eqb COL_ACTUAL) (columns result));
        reflexivity.
    + apply ListFacts.rmap_ok in Hrows.
      revert Hrows. apply Forall2_impl.
      intros r cells Hr. now apply ListFacts.rmap_ok.
    + reflexivity.
Qed.

End ResultTable.

(** ** Where the details stop *)

Section DetailStops.

Variable L : Lib.


(** X20.  A shortfall that is present but is not a number proper does
    not skip the comparison: the block is entered and stops at [int],
    with [ValueError] for [NaN] and [OverflowError] for an infinity;
    after the heading when it is the expected shortfall, after the
    heading and the expected amount when it is the actual one. *)
Theorem comparison_needs_finite_amounts (row : Series)
    (expected actual : float) :
  getitem row COL_EXPECTED = ok (VNum expected) ->
  getitem row COL_ACTUAL = ok (VNum actual) ->
  (finite expected = false ->
   shortfall_block L row
   = ([st_markdown COMPARISON_HEADING],
      raise (if (expected =? expected)%float
             then OverflowError else ValueError)))
  /\ (forall ne, int_of_float expected = ok ne -> finite actual = false ->
      shortfall_block L row
      = ([ st_markdown COMPARISON_HEADING;
           st_metric "예상 부족액" (format_comma ne ++ " 원")%string ],
         raise (if (actual =? actual)%float
                then OverflowError else ValueError))).
Proof.
  intros He Ha. unfold shortfall_block.
  rewrite (proj2 (contains_getitem row COL_EXPECTED)) by eauto.
  rewrite (proj2 (contains_getitem row COL_ACTUAL)) by eauto.
  cbn [andb]. rewrite bind_emit, He, bind_lift_ok. cbn [Py.int].
  split.
  - intros Hf. rewrite (FloatFacts.int_of_non_finite expected Hf). reflexivity.
  - intros ne Hne Hf. rewrite Hne, bind_lift_ok.
    rewrite bind_emit, Ha, bind_lift_ok. cbn [Py.int].
    rewrite (FloatFacts.int_of_non_finite actual Hf). reflexivity.
Qed.

End DetailStops.

(** ** The properties above on the sample tables *)

Lemma search_keeps_matching_rows_witness :
  "Alpha"%string <> ""%string
  /\ search SimpleLib.lib Sample.df "Alpha"
     = ([], ok [Sample.alpha; Sample.gamma]).
Proof.
  split; [discriminate|].
  refine (proj1 (search_keeps_matching_rows SimpleLib.lib Sample.df "Alpha"
                   (fun s => SimpleLib.occurs s "Alpha") _ eq_refl _)).
  - discriminate.
  - intros r Hr. cbn [Sample.df In] in Hr.
    destruct Hr as [<-|[<-|[<-|[]]]]; split; reflexivity.
Defined.

Lemma search_needs_identity_columns_witness :
  "("%string <> ""%string
  /\ str_contains SimpleLib.lib "(" = None
  /\ search SimpleLib.lib Sample.df "(" = ([], raise ReError).
Proof.
  split; [discriminate|]. split; [reflexivity|].
  refine (proj1 (proj2 (proj2 (search_needs_identity_columns SimpleLib.lib
                                 Sample.df "(") _)) _ eq_refl).
  - discriminate.
  - intros r Hr. cbn [Sample.df In] in Hr.
    destruct Hr as [<-|[<-|[<-|[]]]]; reflexivity.
Defined.

Lemma statistics_counts_witness :
  rmap judge_row Sample.df = ok (map Sample.judged Sample.df)
  /\ statistics (map Sample.judged Sample.df)
     = ([ st_markdown "### 전체 통계";
          st_metric "전체 기업 수" "3";
          st_metric "리스크 기업 수" "2";
          st_metric "정상 기업 수" "1" ],
        ok tt).
Proof.
  split; [reflexivity|].
  exact (proj1 (statistics_counts Sample.df (map Sample.judged Sample.df)
                  eq_refl)).
Defined.

Lemma statistics_ignore_checkbox_witness :
  outcome (search SimpleLib.lib Sample.df "Alpha")
  = ok [Sample.alpha; Sample.gamma]
  /\ [Sample.alpha; Sample.gamma] <> []
  /\ exists rest,
       shown (overview SimpleLib.lib Sample.df "Alpha" true)
       = ([ st_markdown "### 전체 통계";
            st_metric "전체 기업 수" "2";
            st_metric "리스크 기업 수" "2";
            st_metric "정상 기업 수" "0" ] ++ rest)%list.
Proof.
  split; [reflexivity|]. split; [discriminate|].
  exact (statistics_ignore_checkbox SimpleLib.lib Sample.df
           [Sample.alpha; Sample.gamma]
           [Sample.judged Sample.alpha; Sample.judged Sample.gamma]
           "Alpha" true eq_refl
           (fun H => eq_ind [Sample.alpha; Sample.gamma]
                       (fun l => match l with [] => False | _ :: _ => True end)
                       I [] H)
           eq_refl).
Defined.

Lemma overview_table_witness :
  filter (selected SimpleLib.lib "Alpha" false) Sample.df <> []
  /\ Forall2 (fun r j => judge_row r = ok j)
       (filter (selected SimpleLib.lib "Alpha" true) Sample.df)
       [Sample.judged Sample.alpha; Sample.judged Sample.gamma].
Proof.
  assert (N : filter (selected SimpleLib.lib "Alpha" false) Sample.df <> [])
    by discriminate.
  split; [exact N|].
  exact (overview_table SimpleLib.lib Sample.df
           [Sample.judged Sample.alpha; Sample.judged Sample.gamma]
           "Alpha" true N eq_refl).
Defined.

Lemma explanation_bullets_witness :
  getitem (Sample.judged Sample.alpha) COL_JUDGEMENT = ok (VNum 0)
  /\ explanation_block SimpleLib.lib (Sample.judged Sample.alpha)
     = ([ st_markdown "### 📌 설명 근거";
          st_markdown "- ✔ 적립률 하락";
          st_markdown "- ✔ 납입 지연" ],
        ok tt).
Proof.
  split; [reflexivity|].
  exact (proj1 (proj2 (explanation_bullets SimpleLib.lib
                         (Sample.judged Sample.alpha) (VNum 0) eq_refl)
                  eq_refl)
           (VStr "적립률 하락 / 납입 지연") eq_refl).
Defined.


Lemma shortfall_block_shown_witness :
  exists t message,
    df_bal SimpleLib.lib 1000000 = ok t
    /\ shortfall_block SimpleLib.lib Sample.alpha
       = ([ st_markdown COMPARISON_HEADING;
            st_metric "예상 부족액" "1,000,000 원";
            st_metric "실제 부족액" "1,500,000 원";
            message;
            st_markdown "---";
            st_markdown PROJECTION_HEADING;
            st_write "가정: 원리금 보장 5%, 비원리금 10% (연이율, 1년 만기 기준)";
            st_dataframe_bal t ],
          ok tt)
    /\ message = st_error "⚠️ 실제 부족액이 예상보다 500,000 원 더 큼".
Proof.
  assert (Hb : exists t, df_bal SimpleLib.lib 1000000 = ok t)
    by (eexists; vm_compute; reflexivity).
  destruct Hb as [t Ht].
  destruct (shortfall_block_shown SimpleLib.lib Sample.alpha 1000000 1500000
              1000000 1500000 500000 t eq_refl eq_refl eq_refl eq_refl
              eq_refl eq_refl Ht) as (message & Hs & Hm).
  exists t, message. split; [exact Ht|]. split; [exact Hs|].
  assert (E : comparison_message (1500000 - 1000000)
              = ([st_error "⚠️ 실제 부족액이 예상보다 500,000 원 더 큼"], ok tt))
    by reflexivity.
  rewrite E in Hm. injection Hm as <-. reflexivity.
Defined.

Lemma projection_needs_actual_shortfall_witness :
  contains (Sample.judged [(COL_REGNO, VStr "101-81-00001");
                           (COL_NAME, VStr "Alpha");
                           (COL_P_RISK, VNum 0.82); (COL_P_NORMAL, VNum 0.18);
                           (COL_EXPLANATION, VStr "적립률 하락");
                           (COL_EXPECTED, VNum 1000000)]) COL_ACTUAL = false
  /\ In (st_markdown "### 📈 연도별 지표 트렌드")
       (shown (details SimpleLib.lib
                 (Sample.judged [(COL_REGNO, VStr "101-81-00001");
                                 (COL_NAME, VStr "Alpha");
                                 (COL_P_RISK, VNum 0.82);
                                 (COL_P_NORMAL, VNum 0.18);
                                 (COL_EXPLANATION, VStr "적립률 하락");
                                 (COL_EXPECTED, VNum 1000000)])
                 Sample.raw_df))
  /\ is_projection (st_markdown "### 📈 연도별 지표 트렌드") = false.
Proof.
  assert (H : In (st_markdown "### 📈 연도별 지표 트렌드")
       (shown (details SimpleLib.lib
                 (Sample.judged [(COL_REGNO, VStr "101-81-00001");
                                 (COL_NAME, VStr "Alpha");
                                 (COL_P_RISK, VNum 0.82);
                                 (COL_P_NORMAL, VNum 0.18);
                                 (COL_EXPLANATION, VStr "적립률 하락");
                                 (COL_EXPECTED, VNum 1000000)])
                 Sample.raw_df))).
  { vm_compute. repeat (try (left; reflexivity); right). }
  split; [reflexivity|]. split; [exact H|].
  refine (projection_needs_actual_shortfall SimpleLib.lib _ Sample.raw_df _
            _ H).
  reflexivity.
Defined.

Lemma trend_chart_or_warning_witness :
  getitem Sample.alpha COL_REGNO = ok (VStr "101-81-00001")
  /\ exists chart,
       trend_block Sample.alpha Sample.raw_df
       = ([ st_markdown "---"; st_markdown "### 📈 연도별 지표 트렌드";
            st_line_chart chart ], ok tt)
       /\ List.length chart = 3%nat.
Proof.
  split; [reflexivity|].
  destruct (trend_chart_or_warning Sample.alpha Sample.raw_df
              (VStr "101-81-00001") eq_refl) as (H & Hl & _).
  eexists. split; [exact H|exact Hl].
Defined.

Lemma missing_regno_shows_warning_witness :
  getitem [(COL_REGNO, VNum nan); (COL_NAME, VStr "Alpha")] COL_REGNO
  = ok (VNum nan)
  /\ (nan =? nan)%float = false
  /\ trend_block [(COL_REGNO, VNum nan); (COL_NAME, VStr "Alpha")]
       [Sample.yearly (VNum nan) (VStr "Alpha") 2016 90 100 80 100 70 100]
     = ([ st_markdown "---"; st_markdown "### 📈 연도별 지표 트렌드";
          st_warning "해당 기업의 원본 연도별 데이터가 없습니다." ],
        ok tt).
Proof.
  split; [reflexivity|]. split; [reflexivity|].
  exact (missing_regno_shows_warning
           [(COL_REGNO, VNum nan); (COL_NAME, VStr "Alpha")]
           [Sample.yearly (VNum nan) (VStr "Alpha") 2016 90 100 80 100 70 100]
           nan eq_refl eq_refl).
Defined.

Lemma table_columns_witness :
  [Sample.judged Sample.alpha] <> []
  /\ table [Sample.judged Sample.alpha]
     = ([ st_subheader "기업별 예측 결과";
          st_dataframe
            [COL_REGNO; COL_NAME; COL_P_RISK; COL_P_NORMAL; COL_JUDGEMENT;
             COL_EXPECTED; COL_ACTUAL]
            [[VStr "101-81-00001"; VStr "Alpha"; VNum 0.82; VNum 0.18;
              VNum 0; VNum 1000000; VNum 1500000]] ],
        ok tt).
Proof.
  assert (N : [Sample.judged Sample.alpha] <> []) by discriminate.
  split; [exact N|].
  refine (proj2 (proj2 (table_columns [Sample.judged Sample.alpha] _ _ N _))).
  right. left. reflexivity.
Defined.


Lemma comparison_needs_finite_amounts_witness :
  getitem [(COL_EXPECTED, VNum nan); (COL_ACTUAL, VNum 800)] COL_EXPECTED
  = ok (VNum nan)
  /\ getitem [(COL_EXPECTED, VNum nan); (COL_ACTUAL, VNum 800)] COL_ACTUAL
     = ok (VNum 800)
  /\ finite nan = false
  /\ shortfall_block SimpleLib.lib
       [(COL_EXPECTED, VNum nan); (COL_ACTUAL, VNum 800)]
     = ([st_markdown COMPARISON_HEADING], raise ValueError).
Proof.
  split; [reflexivity|]. split; [reflexivity|]. split; [reflexivity|].
  exact (proj1 (comparison_needs_finite_amounts SimpleLib.lib
                  [(COL_EXPECTED, VNum nan); (COL_ACTUAL, VNum 800)]
                  nan 800 eq_refl eq_refl) eq_refl).
Defined.
